(** * libmicrohttpd: the send() wrappers of [microhttpd/mhd_send.c]

    A shallow embedding of the socket-transmission layer:
    [pre_send_setopt], [post_send_setopt], [MHD_send_on_connection_],
    [MHD_send_on_connection2_] and [MHD_send_sendfile_].

    The C file is one source text for many builds: every [#ifdef] it
    branches on is a field of the class [Platform] below, together with
    the constants and macros it takes from other headers
    ([mhd_sockets.h], [connection.h], [internal.h], [microhttpd.h],
    [mhd_limits.h], the system's [errno.h]).  Every
    function is parameterised by the platform, so a statement proved
    without assumption on it holds for every build.

    System calls are the only interaction with the outside: each function
    receives the replies of the calls it may issue and returns, next to
    its C return value, the updated connection and the list of calls it
    issued, in order. *)

From Stdlib Require Import ZArith List Bool Lia Relations.
From Stdlib Require Import Strings.Byte.
Import ListNotations.
Open Scope Z_scope.

(** ** Build configuration *)

(** [HAVE_SENDMSG] / [HAVE_WRITEV]: which scatter-gather primitive
    [MHD_send_on_connection2_] is compiled with, if any. *)
Inductive scatter_gather : Type :=
| USE_SENDMSG
| USE_WRITEV
| NO_SCATTER_GATHER.

(** The four [sendfile()] families of [MHD_send_sendfile_]:
    [MHD_LINUX_SOLARIS_SENDFILE] with or without [HAVE_LINUX_SENDFILE],
    [HAVE_FREEBSD_SENDFILE], [HAVE_DARWIN_SENDFILE]. *)
Inductive sendfile_variant : Type :=
| LINUX_SENDFILE
| SOLARIS_SENDFILE
| FREEBSD_SENDFILE
| DARWIN_SENDFILE.

Class Platform : Type := {
  (* conditional compilation *)
  MHD_USE_MSG_MORE : bool;
  MHD_TCP_CORK_NOPUSH : bool;
  HTTPS_SUPPORT : bool;
  EPOLL_SUPPORT : bool;
  SCATTER_GATHER : scatter_gather;
  SENDFILE : sendfile_variant;
  SF_FLAGS_defined : bool;
  (* static variables set once by MHD_send_init_static_vars_ *)
  freebsd_sendfile_flags_ : Z;
  freebsd_sendfile_flags_thd_p_c_ : Z;
  (* integer widths and limits *)
  size_t_bits : Z;
  SSIZE_MAX : Z;
  MHD_SCKT_SEND_MAX_SIZE_ : Z;
  max_off_t : Z;                 (* OFF_T_MAX, or OFF64_T_MAX with HAVE_SENDFILE64 *)
  (* microhttpd.h, internal.h, connection.h *)
  MHD_INVALID_SOCKET : Z;
  MHD_CONNECTION_CLOSED : Z;
  MHD_USE_TLS : Z;
  MHD_USE_THREAD_PER_CONNECTION : Z;
  MHD_EPOLL_STATE_WRITE_READY : Z;
  MHD_ERR_AGAIN_ : Z;
  MHD_ERR_CONNRESET_ : Z;
  MHD_ERR_NOTCONN_ : Z;
  MHD_ERR_BADF_ : Z;
  (* send flags, GnuTLS codes *)
  MSG_MORE : Z;
  MSG_NOSIGNAL_OR_ZERO : Z;
  GNUTLS_E_AGAIN : Z;
  GNUTLS_E_INTERRUPTED : Z;
  (* errno.h and the error macros of mhd_sockets.h *)
  EAGAIN : Z;
  EAFNOSUPPORT : Z;
  EINVAL : Z;
  EOPNOTSUPP : Z;
  ENOTSUP : Z;
  ENOTCONN : Z;
  EPIPE : Z;
  EBUSY : Z;
  MHD_SCKT_ECONNRESET_ : Z;
  MHD_SCKT_EBADF_ : Z;
  MHD_SCKT_ERR_IS_EAGAIN_ : Z -> bool;
  MHD_SCKT_ERR_IS_EINTR_ : Z -> bool;
  MHD_SCKT_ERR_IS_ : Z -> Z -> bool
}.

(** [sendfile()] chunk sizes. *)
Definition MHD_SENFILE_CHUNK_ : Z := 0x20000.
Definition MHD_SENFILE_CHUNK_THR_P_C_ : Z := 0x200000.

(** ** Data model *)

Inductive MHD_SendSocketOptions : Type :=
| MHD_SSO_PUSH_DATA
| MHD_SSO_PREFER_BUFF
| MHD_SSO_HDR_CORK.

Inductive MHD_resp_sender_ : Type :=
| MHD_resp_sender_std
| MHD_resp_sender_sendfile.

Record MHD_Daemon : Type := {
  options : Z
}.

Record MHD_Response : Type := {
  fd : Z;
  fd_off : Z;          (* uint64_t *)
  total_size : Z       (* uint64_t *)
}.

Record MHD_Connection : Type := {
  daemon : MHD_Daemon;
  socket_fd : Z;
  state : Z;
  tls_session : Z;
  sk_corked : bool;
  sk_nodelay : bool;
  epoll_state : Z;
  resp_sender : MHD_resp_sender_;
  response_write_position : Z;   (* uint64_t *)
  response : MHD_Response
}.

Definition set_sk_corked (c : MHD_Connection) (b : bool) : MHD_Connection :=
  {| daemon := daemon c; socket_fd := socket_fd c; state := state c;
     tls_session := tls_session c; sk_corked := b; sk_nodelay := sk_nodelay c;
     epoll_state := epoll_state c; resp_sender := resp_sender c;
     response_write_position := response_write_position c;
     response := response c |}.

Definition set_sk_nodelay (c : MHD_Connection) (b : bool) : MHD_Connection :=
  {| daemon := daemon c; socket_fd := socket_fd c; state := state c;
     tls_session := tls_session c; sk_corked := sk_corked c; sk_nodelay := b;
     epoll_state := epoll_state c; resp_sender := resp_sender c;
     response_write_position := response_write_position c;
     response := response c |}.

Definition set_epoll_state (c : MHD_Connection) (e : Z) : MHD_Connection :=
  {| daemon := daemon c; socket_fd := socket_fd c; state := state c;
     tls_session := tls_session c; sk_corked := sk_corked c;
     sk_nodelay := sk_nodelay c;
     epoll_state := e; resp_sender := resp_sender c;
     response_write_position := response_write_position c;
     response := response c |}.

Definition set_resp_sender (c : MHD_Connection) (r : MHD_resp_sender_)
  : MHD_Connection :=
  {| daemon := daemon c; socket_fd := socket_fd c; state := state c;
     tls_session := tls_session c; sk_corked := sk_corked c;
     sk_nodelay := sk_nodelay c;
     epoll_state := epoll_state c; resp_sender := r;
     response_write_position := response_write_position c;
     response := response c |}.

(** ** System calls *)

(** A buffer argument: the bytes behind the pointer and the length passed. *)
Definition iovec : Type := (list byte * Z)%type.

(** The calls this layer issues, with the arguments that matter. *)
Inductive syscall : Type :=
| MHD_socket_cork_ (sock : Z) (on : bool)
| MHD_socket_set_nodelay_ (sock : Z) (on : bool)
| MHD_send4_ (s : Z) (buffer : list byte) (len : Z) (flags : Z)
| gnutls_record_send (session : Z) (buffer : list byte) (len : Z)
| sendmsg (s : Z) (msg_iov : list iovec) (flags : Z)
| writev (s : Z) (vector : list iovec) (iovcnt : Z)
| sendfile (s : Z) (file_fd : Z) (offset : Z) (count : Z) (flags : Z).

(** What a call answers: its return value, the [errno] it leaves, and the
    value of its out-parameter ([sent_bytes] on FreeBSD, [len] on Darwin). *)
Record reply : Type := {
  r_ret : Z;
  r_errno : Z;
  r_out : Z
}.

(** One call of this layer issues at most one mode-setting call before the
    transfer, one transfer call, and one mode-setting call after it. *)
Record Env : Type := {
  env_pre_setopt : reply;
  env_transfer : reply;
  env_post_setopt : reply
}.

(** The C return value, the connection as the call leaves it, and the
    system calls issued, oldest first. *)
Record Result : Type := {
  res_ret : Z;
  res_conn : MHD_Connection;
  res_trace : list syscall
}.

Definition is_mode_set (k : syscall) : bool :=
  match k with
  | MHD_socket_cork_ _ _ | MHD_socket_set_nodelay_ _ _ => true
  | _ => false
  end.

Definition is_transfer (k : syscall) : bool := negb (is_mode_set k).

Section Send.

Context {P : Platform}.

(** ** Integer conversions *)

Definition to_size_t (z : Z) : Z := z mod 2 ^ size_t_bits.
Definition to_uint64 (z : Z) : Z := z mod 2 ^ 64.

(** [x &= ~MHD_EPOLL_STATE_WRITE_READY] *)
Definition clear_write_ready (c : MHD_Connection) : MHD_Connection :=
  set_epoll_state c
    (Z.land (epoll_state c) (Z.lnot MHD_EPOLL_STATE_WRITE_READY)).

(** ** Buffering-mode controller *)

(** [MHD_socket_cork_] reports success with a non-zero return: the callers
    store the new state when [0 != ret] and inspect [errno] otherwise. *)
Definition cork_succeeded (r : reply) : bool := negb (r_ret r =? 0).

(** Modelled from the spec: [MHD_socket_set_nodelay_] lives in
    [mhd_sockets.c], outside this file.  The spec says the
    cached state is updated only on confirmed success, and
    [pre_send_setopt] stores [sk_nodelay] exactly when the helper returns
    zero; zero is therefore read as its success value. *)
Definition nodelay_succeeded (r : reply) : bool := r_ret r =? 0.

(** [pre_send_setopt (connection, plain_send, push_data)].
    [r] is the reply of the mode-setting call, should one be issued.
    The [switch (errno)] after a failed cork only logs. *)
Definition pre_send_setopt (connection : MHD_Connection)
    (plain_send push_data : bool) (r : reply)
  : MHD_Connection * list syscall :=
  let buffer_data := negb push_data in
  if MHD_USE_MSG_MORE && plain_send then (connection, [])
  else if MHD_TCP_CORK_NOPUSH then
    if Bool.eqb (sk_corked connection) buffer_data then (connection, [])
    else if push_data then (connection, [])
    else
      let ret := r_ret r in
      (if negb (0 =? ret) then set_sk_corked connection buffer_data
       else connection,
       [MHD_socket_cork_ (socket_fd connection) buffer_data])
  else
    if Bool.eqb (sk_nodelay connection) push_data then (connection, [])
    else
      (if 0 =? r_ret r then set_sk_nodelay connection push_data
       else connection,
       [MHD_socket_set_nodelay_ (socket_fd connection) push_data]).

(** [post_send_setopt (connection, plain_send, push_data)].
    Without [MHD_TCP_CORK_NOPUSH] the function body is empty. *)
Definition post_send_setopt (connection : MHD_Connection)
    (plain_send push_data : bool) (r : reply)
  : MHD_Connection * list syscall :=
  let buffer_data := negb push_data in
  if MHD_USE_MSG_MORE && plain_send then (connection, [])
  else if MHD_TCP_CORK_NOPUSH then
    if Bool.eqb (sk_corked connection) buffer_data then (connection, [])
    else if buffer_data then (connection, [])
    else
      let ret := r_ret r in
      (if negb (0 =? ret) then set_sk_corked connection buffer_data
       else connection,
       [MHD_socket_cork_ (socket_fd connection) buffer_data])
  else (connection, []).

(** ** Transmission dispatcher *)

(** [connection->daemon->options & MHD_USE_TLS], [false] without
    [HTTPS_SUPPORT]. *)
Definition tls_conn_of (connection : MHD_Connection) : bool :=
  if HTTPS_SUPPORT
  then negb (0 =? Z.land (options (daemon connection)) MHD_USE_TLS)
  else false.

(** The [switch (options)] of [MHD_send_on_connection_]. *)
Definition push_data_of (opts : MHD_SendSocketOptions) (buffer_size : Z)
  : bool :=
  match opts with
  | MHD_SSO_PUSH_DATA => true
  | MHD_SSO_PREFER_BUFF => false
  | MHD_SSO_HDR_CORK => 1024 <? buffer_size
  end.

Definition mk_result (ret : Z) (connection : MHD_Connection)
    (tr : list syscall) : Result :=
  {| res_ret := ret; res_conn := connection; res_trace := tr |}.

(** [MHD_send_on_connection_ (connection, buffer, buffer_size, options)].
    Note that the closing [post_send_setopt] receives [tls_conn], not its
    negation, as [plain_send]. *)
Definition MHD_send_on_connection_ (connection : MHD_Connection)
    (buffer : list byte) (buffer_size : Z) (opts : MHD_SendSocketOptions)
    (env : Env) : Result :=
  let s := socket_fd connection in
  let tls_conn := tls_conn_of connection in
  if (MHD_INVALID_SOCKET =? s)
     || (MHD_CONNECTION_CLOSED =? state connection)
  then mk_result MHD_ERR_NOTCONN_ connection []
  else
    let push_data := push_data_of opts buffer_size in
    let pre :=
      pre_send_setopt connection (negb tls_conn) push_data
        (env_pre_setopt env) in
    let connection := fst pre in
    let ret := r_ret (env_transfer env) in
    if tls_conn then
      let buffer_size :=
        if SSIZE_MAX <? buffer_size then SSIZE_MAX else buffer_size in
      let tr :=
        snd pre
        ++ [gnutls_record_send (tls_session connection) buffer buffer_size] in
      if (GNUTLS_E_AGAIN =? ret) || (GNUTLS_E_INTERRUPTED =? ret) then
        mk_result MHD_ERR_AGAIN_
          (if EPOLL_SUPPORT && (GNUTLS_E_AGAIN =? ret)
           then clear_write_ready connection else connection)
          tr
      else if ret <? 0 then mk_result MHD_ERR_NOTCONN_ connection tr
      else
        let post :=
          post_send_setopt connection tls_conn
            (push_data && (buffer_size =? to_size_t ret))
            (env_post_setopt env) in
        mk_result ret (fst post) (tr ++ snd post)
    else
      (* plaintext transmission *)
      let buffer_size :=
        if MHD_SCKT_SEND_MAX_SIZE_ <? buffer_size
        then MHD_SCKT_SEND_MAX_SIZE_ else buffer_size in
      let flags :=
        if MHD_USE_MSG_MORE then (if push_data then 0 else MSG_MORE) else 0 in
      let tr := snd pre ++ [MHD_send4_ s buffer buffer_size flags] in
      if ret <? 0 then
        let err := r_errno (env_transfer env) in
        if MHD_SCKT_ERR_IS_EAGAIN_ err then
          mk_result MHD_ERR_AGAIN_
            (if EPOLL_SUPPORT then clear_write_ready connection
             else connection)
            tr
        else if MHD_SCKT_ERR_IS_EINTR_ err then
          mk_result MHD_ERR_AGAIN_ connection tr
        else if MHD_SCKT_ERR_IS_ err MHD_SCKT_ECONNRESET_ then
          mk_result MHD_ERR_CONNRESET_ connection tr
        else mk_result MHD_ERR_NOTCONN_ connection tr
      else
        let connection :=
          if EPOLL_SUPPORT && (to_size_t ret <? buffer_size)
          then clear_write_ready connection else connection in
        let post :=
          post_send_setopt connection tls_conn
            (push_data && (buffer_size =? to_size_t ret))
            (env_post_setopt env) in
        mk_result ret (fst post) (tr ++ snd post).

(** [MHD_send_on_connection2_ (connection, header, header_size, buffer,
    buffer_size)]. *)
Definition MHD_send_on_connection2_ (connection : MHD_Connection)
    (header : list byte) (header_size : Z)
    (buffer : list byte) (buffer_size : Z) (env : Env) : Result :=
  let s := socket_fd connection in
  let tls_conn := tls_conn_of connection in
  if HTTPS_SUPPORT && tls_conn then
    MHD_send_on_connection_ connection header header_size MHD_SSO_HDR_CORK env
  else
    match SCATTER_GATHER with
    | NO_SCATTER_GATHER =>
        MHD_send_on_connection_ connection header header_size
          MHD_SSO_HDR_CORK env
    | sg =>
        let pre :=
          pre_send_setopt connection (negb tls_conn) true
            (env_pre_setopt env) in
        let connection := fst pre in
        let vector := [(header, header_size); (buffer, buffer_size)] in
        let ret := r_ret (env_transfer env) in
        let tr :=
          snd pre
          ++ [match sg with
              | USE_SENDMSG => sendmsg s vector MSG_NOSIGNAL_OR_ZERO
              | _ => writev s vector 2
              end] in
        if (-1 =? ret) && (EAGAIN =? r_errno (env_transfer env)) then
          mk_result MHD_ERR_AGAIN_ connection tr
        else
          let post :=
            post_send_setopt connection (negb tls_conn)
              (to_size_t (header_size + buffer_size) =? to_size_t ret)
              (env_post_setopt env) in
          mk_result ret (fst post) (tr ++ snd post)
    end.

(** ** Zero-copy file transmitter *)

(** The closing lines of [MHD_send_sendfile_]:
    [post_send_setopt (connection, false, (left == (uint64_t) ret))]. *)
Definition sendfile_finish (connection : MHD_Connection) (left ret : Z)
    (tr : list syscall) (env : Env) : Result :=
  let post :=
    post_send_setopt connection false (left =? to_uint64 ret)
      (env_post_setopt env) in
  mk_result ret (fst post) (tr ++ snd post).

(** The [MHD_LINUX_SOLARIS_SENDFILE] block; [linux] is
    [HAVE_LINUX_SENDFILE]. *)
Definition sendfile_linux_solaris (linux : bool)
    (connection : MHD_Connection) (left send_size : Z)
    (tr : list syscall) (env : Env) : Result :=
  let ret := r_ret (env_transfer env) in
  if ret <? 0 then
    let err := r_errno (env_transfer env) in
    if MHD_SCKT_ERR_IS_EAGAIN_ err then
      mk_result MHD_ERR_AGAIN_
        (if EPOLL_SUPPORT then clear_write_ready connection else connection)
        tr
    else if MHD_SCKT_ERR_IS_EINTR_ err then
      mk_result MHD_ERR_AGAIN_ connection tr
    else if linux then
      if MHD_SCKT_ERR_IS_ err MHD_SCKT_EBADF_ then
        mk_result MHD_ERR_BADF_ connection tr
      else
        mk_result MHD_ERR_AGAIN_
          (set_resp_sender connection MHD_resp_sender_std) tr
    else
      if (EAFNOSUPPORT =? err) || (EINVAL =? err) || (EOPNOTSUPP =? err) then
        mk_result MHD_ERR_AGAIN_
          (set_resp_sender connection MHD_resp_sender_std) tr
      else if (ENOTCONN =? err) || (EPIPE =? err) then
        mk_result MHD_ERR_CONNRESET_ connection tr
      else mk_result MHD_ERR_BADF_ connection tr
  else
    let connection :=
      if EPOLL_SUPPORT && (to_size_t ret <? send_size)
      then clear_write_ready connection else connection in
    sendfile_finish connection left ret tr env.

(** The [HAVE_FREEBSD_SENDFILE] block; [sent_bytes] is the out-parameter. *)
Definition sendfile_freebsd (connection : MHD_Connection) (left : Z)
    (tr : list syscall) (env : Env) : Result :=
  let sent_bytes := r_out (env_transfer env) in
  if negb (0 =? r_ret (env_transfer env)) then
    let err := r_errno (env_transfer env) in
    if MHD_SCKT_ERR_IS_EAGAIN_ err || MHD_SCKT_ERR_IS_EINTR_ err
       || (EBUSY =? err)
    then
      if negb (0 =? sent_bytes) then mk_result sent_bytes connection tr
      else mk_result MHD_ERR_AGAIN_ connection tr
    else
      mk_result MHD_ERR_AGAIN_
        (set_resp_sender connection MHD_resp_sender_std) tr
  else sendfile_finish connection left sent_bytes tr env.

(** The [HAVE_DARWIN_SENDFILE] block; [len] is read back after the call. *)
Definition sendfile_darwin (connection : MHD_Connection) (left : Z)
    (tr : list syscall) (env : Env) : Result :=
  let len := r_out (env_transfer env) in
  if negb (0 =? r_ret (env_transfer env)) then
    let err := r_errno (env_transfer env) in
    if MHD_SCKT_ERR_IS_EAGAIN_ err || MHD_SCKT_ERR_IS_EINTR_ err then
      if negb (0 =? len) then mk_result len connection tr
      else mk_result MHD_ERR_AGAIN_ connection tr
    else if (ENOTCONN =? err) || (EPIPE =? err) then
      mk_result MHD_ERR_CONNRESET_ connection tr
    else if (ENOTSUP =? err) || (EOPNOTSUPP =? err) then
      mk_result MHD_ERR_AGAIN_
        (set_resp_sender connection MHD_resp_sender_std) tr
    else mk_result MHD_ERR_BADF_ connection tr
  else sendfile_finish connection left len tr env.

(** [used_thr_p_c] and [chunk_size], the constants computed at the head of
    [MHD_send_sendfile_]; [chunk_size] is a [size_t]. *)
Definition used_thr_p_c (connection : MHD_Connection) : bool :=
  negb (0 =? Z.land (options (daemon connection))
               MHD_USE_THREAD_PER_CONNECTION).

Definition chunk_size (connection : MHD_Connection) : Z :=
  to_size_t (if used_thr_p_c connection then MHD_SENFILE_CHUNK_THR_P_C_
             else MHD_SENFILE_CHUNK_).

(** [offsetu64] and [left], in [uint64_t] arithmetic. *)
Definition offsetu64 (connection : MHD_Connection) : Z :=
  to_uint64 (response_write_position connection
             + fd_off (response connection)).

Definition left (connection : MHD_Connection) : Z :=
  to_uint64 (total_size (response connection)
             - response_write_position connection).

(** [send_size = (left > chunk_size) ? chunk_size : (size_t) left] *)
Definition send_size (connection : MHD_Connection) : Z :=
  if chunk_size connection <? left connection then chunk_size connection
  else to_size_t (left connection).

(** The [flags] argument: FreeBSD's read-ahead flags where [SF_FLAGS]
    exists, zero elsewhere. *)
Definition sendfile_flags (connection : MHD_Connection) : Z :=
  match SENDFILE with
  | FREEBSD_SENDFILE =>
      if SF_FLAGS_defined
      then (if used_thr_p_c connection then freebsd_sendfile_flags_thd_p_c_
            else freebsd_sendfile_flags_)
      else 0
  | _ => 0
  end.

(** [MHD_send_sendfile_ (connection)].  The two [mhd_assert]s at its head,
    [MHD_resp_sender_sendfile == connection->resp_sender] and no TLS, are
    checks of debug builds and are not part of the function's behaviour.
    The casts of [offsetu64] to [off_t] are taken only below [max_off_t],
    where they change nothing. *)
Definition MHD_send_sendfile_ (connection : MHD_Connection) (env : Env)
  : Result :=
  let file_fd := fd (response connection) in
  let pre := pre_send_setopt connection false true (env_pre_setopt env) in
  let connection := fst pre in
  if max_off_t <? offsetu64 connection then
    mk_result MHD_ERR_AGAIN_
      (set_resp_sender connection MHD_resp_sender_std) (snd pre)
  else
    let tr :=
      snd pre
      ++ [sendfile (socket_fd connection) file_fd (offsetu64 connection)
            (send_size connection) (sendfile_flags connection)] in
    match SENDFILE with
    | LINUX_SENDFILE =>
        sendfile_linux_solaris true connection (left connection)
          (send_size connection) tr env
    | SOLARIS_SENDFILE =>
        sendfile_linux_solaris false connection (left connection)
          (send_size connection) tr env
    | FREEBSD_SENDFILE => sendfile_freebsd connection (left connection) tr env
    | DARWIN_SENDFILE => sendfile_darwin connection (left connection) tr env
    end.

End Send.

(** ** Concrete builds

    The source fixes none of the header constants; the builds below fill
    them with the numbering of a GNU/Linux system and the codes of
    [connection.h], and differ in the compilation switches only. *)

Definition linux_build : Platform := {|
  MHD_USE_MSG_MORE := true;
  MHD_TCP_CORK_NOPUSH := true;
  HTTPS_SUPPORT := true;
  EPOLL_SUPPORT := true;
  SCATTER_GATHER := USE_SENDMSG;
  SENDFILE := LINUX_SENDFILE;
  SF_FLAGS_defined := false;
  freebsd_sendfile_flags_ := 0;
  freebsd_sendfile_flags_thd_p_c_ := 0;
  size_t_bits := 64;
  SSIZE_MAX := 2 ^ 63 - 1;
  MHD_SCKT_SEND_MAX_SIZE_ := 2 ^ 63 - 1;
  max_off_t := 2 ^ 63 - 1;
  MHD_INVALID_SOCKET := -1;
  MHD_CONNECTION_CLOSED := 19;
  MHD_USE_TLS := 2;
  MHD_USE_THREAD_PER_CONNECTION := 4;
  MHD_EPOLL_STATE_WRITE_READY := 2;
  MHD_ERR_AGAIN_ := -3073;
  MHD_ERR_CONNRESET_ := -3074;
  MHD_ERR_NOTCONN_ := -3075;
  MHD_ERR_BADF_ := -3077;
  MSG_MORE := 0x8000;
  MSG_NOSIGNAL_OR_ZERO := 0x4000;
  GNUTLS_E_AGAIN := -28;
  GNUTLS_E_INTERRUPTED := -52;
  EAGAIN := 11;
  EAFNOSUPPORT := 97;
  EINVAL := 22;
  EOPNOTSUPP := 95;
  ENOTSUP := 95;
  ENOTCONN := 107;
  EPIPE := 32;
  EBUSY := 16;
  MHD_SCKT_ECONNRESET_ := 104;
  MHD_SCKT_EBADF_ := 9;
  MHD_SCKT_ERR_IS_EAGAIN_ := fun err => 11 =? err;
  MHD_SCKT_ERR_IS_EINTR_ := fun err => 4 =? err;
  MHD_SCKT_ERR_IS_ := fun err code => code =? err
|}.

(** The same constants under other compilation switches. *)
Definition rebuild (p : Platform) (msg_more cork https epoll : bool)
    (sg : scatter_gather) (sf : sendfile_variant) : Platform := {|
  MHD_USE_MSG_MORE := msg_more;
  MHD_TCP_CORK_NOPUSH := cork;
  HTTPS_SUPPORT := https;
  EPOLL_SUPPORT := epoll;
  SCATTER_GATHER := sg;
  SENDFILE := sf;
  SF_FLAGS_defined := @SF_FLAGS_defined p;
  freebsd_sendfile_flags_ := @freebsd_sendfile_flags_ p;
  freebsd_sendfile_flags_thd_p_c_ := @freebsd_sendfile_flags_thd_p_c_ p;
  size_t_bits := @size_t_bits p;
  SSIZE_MAX := @SSIZE_MAX p;
  MHD_SCKT_SEND_MAX_SIZE_ := @MHD_SCKT_SEND_MAX_SIZE_ p;
  max_off_t := @max_off_t p;
  MHD_INVALID_SOCKET := @MHD_INVALID_SOCKET p;
  MHD_CONNECTION_CLOSED := @MHD_CONNECTION_CLOSED p;
  MHD_USE_TLS := @MHD_USE_TLS p;
  MHD_USE_THREAD_PER_CONNECTION := @MHD_USE_THREAD_PER_CONNECTION p;
  MHD_EPOLL_STATE_WRITE_READY := @MHD_EPOLL_STATE_WRITE_READY p;
  MHD_ERR_AGAIN_ := @MHD_ERR_AGAIN_ p;
  MHD_ERR_CONNRESET_ := @MHD_ERR_CONNRESET_ p;
  MHD_ERR_NOTCONN_ := @MHD_ERR_NOTCONN_ p;
  MHD_ERR_BADF_ := @MHD_ERR_BADF_ p;
  MSG_MORE := @MSG_MORE p;
  MSG_NOSIGNAL_OR_ZERO := @MSG_NOSIGNAL_OR_ZERO p;
  GNUTLS_E_AGAIN := @GNUTLS_E_AGAIN p;
  GNUTLS_E_INTERRUPTED := @GNUTLS_E_INTERRUPTED p;
  EAGAIN := @EAGAIN p;
  EAFNOSUPPORT := @EAFNOSUPPORT p;
  EINVAL := @EINVAL p;
  EOPNOTSUPP := @EOPNOTSUPP p;
  ENOTSUP := @ENOTSUP p;
  ENOTCONN := @ENOTCONN p;
  EPIPE := @EPIPE p;
  EBUSY := @EBUSY p;
  MHD_SCKT_ECONNRESET_ := @MHD_SCKT_ECONNRESET_ p;
  MHD_SCKT_EBADF_ := @MHD_SCKT_EBADF_ p;
  MHD_SCKT_ERR_IS_EAGAIN_ := @MHD_SCKT_ERR_IS_EAGAIN_ p;
  MHD_SCKT_ERR_IS_EINTR_ := @MHD_SCKT_ERR_IS_EINTR_ p;
  MHD_SCKT_ERR_IS_ := @MHD_SCKT_ERR_IS_ p
|}.

(** No [MSG_MORE], no cork, no epoll, [writev()]: a select()-driven build. *)
Definition plain_build : Platform :=
  rebuild linux_build false false false false USE_WRITEV LINUX_SENDFILE.

Definition solaris_build : Platform :=
  rebuild linux_build false false true false USE_WRITEV SOLARIS_SENDFILE.

Definition freebsd_build : Platform :=
  rebuild linux_build false true true false USE_SENDMSG FREEBSD_SENDFILE.

Definition darwin_build : Platform :=
  rebuild linux_build false true true false USE_SENDMSG DARWIN_SENDFILE.

(** A plaintext connection serving a 1000000-byte file from its start,
    write-ready, uncorked, with Nagle's algorithm on. *)
Definition sample_connection : MHD_Connection := {|
  daemon := {| options := 0 |};
  socket_fd := 7;
  state := 12;
  tls_session := 0;
  sk_corked := false;
  sk_nodelay := false;
  epoll_state := 3;
  resp_sender := MHD_resp_sender_sendfile;
  response_write_position := 0;
  response := {| fd := 9; fd_off := 0; total_size := 1000000 |}
|}.

Definition ok_reply : reply := {| r_ret := 0; r_errno := 0; r_out := 0 |}.

(** A failed call: return value [-1], the given [errno] and out-parameter. *)
Definition failure (err out : Z) : reply :=
  {| r_ret := -1; r_errno := err; r_out := out |}.

(** All mode-setting calls answer zero; the transfer call answers [r]. *)
Definition env_of (r : reply) : Env :=
  {| env_pre_setopt := ok_reply; env_transfer := r;
     env_post_setopt := ok_reply |}.

(** ** Vocabulary of the statements *)

Section Vocabulary.

Context {P : Platform}.

(** The buffering-mode cache of a build: [sk_corked] where the platform
    has a cork primitive, [sk_nodelay] where it has not. *)
Definition cached_mode (c : MHD_Connection) : bool :=
  if MHD_TCP_CORK_NOPUSH then sk_corked c else sk_nodelay c.

(** The cache value that [push_data] asks for. *)
Definition desired_mode (push_data : bool) : bool :=
  if MHD_TCP_CORK_NOPUSH then negb push_data else push_data.

Definition set_cached_mode (c : MHD_Connection) (b : bool) : MHD_Connection :=
  if MHD_TCP_CORK_NOPUSH then set_sk_corked c b else set_sk_nodelay c b.

(** The mode-setting primitive of the build, on the connection's socket. *)
Definition mode_set_call (c : MHD_Connection) (b : bool) : syscall :=
  if MHD_TCP_CORK_NOPUSH then MHD_socket_cork_ (socket_fd c) b
  else MHD_socket_set_nodelay_ (socket_fd c) b.

Definition mode_set_succeeded (r : reply) : bool :=
  if MHD_TCP_CORK_NOPUSH then cork_succeeded r else nodelay_succeeded r.

(** What a hook may do with connection [c] when asked for [push_data] and
    answered [r]: nothing at all; one call that fails and leaves the
    connection as it was; one call that succeeds and stores the new mode. *)
Inductive hook_outcome (c : MHD_Connection) (push_data : bool) (r : reply)
  : MHD_Connection * list syscall -> Prop :=
| hook_idle :
    hook_outcome c push_data r (c, [])
| hook_failed :
    cached_mode c <> desired_mode push_data ->
    mode_set_succeeded r = false ->
    hook_outcome c push_data r
      (c, [mode_set_call c (desired_mode push_data)])
| hook_stored :
    cached_mode c <> desired_mode push_data ->
    mode_set_succeeded r = true ->
    hook_outcome c push_data r
      (set_cached_mode c (desired_mode push_data),
       [mode_set_call c (desired_mode push_data)]).

(** The same transfer reply under other mode-setting replies. *)
Definition with_setopt_replies (env : Env) (r_pre r_post : reply) : Env :=
  {| env_pre_setopt := r_pre; env_transfer := env_transfer env;
     env_post_setopt := r_post |}.

(** What a transfer leaves behind besides the mode cache. *)
Definition transfer_outcome (res : Result)
  : Z * Z * MHD_resp_sender_ * list syscall :=
  (res_ret res, epoll_state (res_conn res), resp_sender (res_conn res),
   filter is_transfer (res_trace res)).

(** The fields of a connection outside the buffering-mode cache, the epoll
    write-ready flag and the transmission-strategy tag. *)
Record frame_eq (c c' : MHD_Connection) : Prop := {
  frame_daemon : daemon c' = daemon c;
  frame_socket_fd : socket_fd c' = socket_fd c;
  frame_state : state c' = state c;
  frame_tls_session : tls_session c' = tls_session c;
  frame_write_position :
    response_write_position c' = response_write_position c;
  frame_response : response c' = response c
}.

(** A hook touches the mode cache only. *)
Record cache_only (c c' : MHD_Connection) : Prop := {
  cache_only_frame : frame_eq c c';
  cache_only_epoll : epoll_state c' = epoll_state c;
  cache_only_sender : resp_sender c' = resp_sender c
}.

(** The epoll state after a call: untouched, or with the write-ready bit
    cleared. *)
Definition write_ready_cleared (c c' : MHD_Connection) : Prop :=
  epoll_state c' = epoll_state c
  \/ epoll_state c'
     = Z.land (epoll_state c) (Z.lnot MHD_EPOLL_STATE_WRITE_READY).

(** The outcome vocabulary as a C return value: a byte count, or one of
    the four [MHD_ERR_] codes this file returns. *)
Definition in_outcome_vocabulary (ret : Z) : bool :=
  (0 <=? ret) || (ret =? MHD_ERR_AGAIN_) || (ret =? MHD_ERR_CONNRESET_)
  || (ret =? MHD_ERR_NOTCONN_) || (ret =? MHD_ERR_BADF_).

(** The chunk size holds in [size_t] and in [off_t]. *)
Definition chunk_fits : Prop :=
  MHD_SENFILE_CHUNK_THR_P_C_ < 2 ^ size_t_bits
  /\ MHD_SENFILE_CHUNK_THR_P_C_ <= max_off_t.

(** The errors [MHD_send_on_connection_] and the Linux/Solaris block test
    before any other. *)
Definition retry_class (err : Z) : bool :=
  MHD_SCKT_ERR_IS_EAGAIN_ err || MHD_SCKT_ERR_IS_EINTR_ err.

(** [ENOTCONN == err || EPIPE == err] *)
Definition reset_class (err : Z) : bool :=
  (ENOTCONN =? err) || (EPIPE =? err).

(** One step in the life of a connection: a call of this layer, or
    anything its caller does that leaves [resp_sender] alone. *)
Inductive conn_step : MHD_Connection -> MHD_Connection -> Prop :=
| step_send c buffer buffer_size opts env :
    conn_step c
      (res_conn (MHD_send_on_connection_ c buffer buffer_size opts env))
| step_send2 c header header_size buffer buffer_size env :
    conn_step c
      (res_conn
         (MHD_send_on_connection2_ c header header_size buffer buffer_size
            env))
| step_sendfile c env :
    conn_step c (res_conn (MHD_send_sendfile_ c env))
| step_caller c c' :
    resp_sender c' = resp_sender c -> conn_step c c'.

End Vocabulary.

(** The caller moving on by [n] bytes. *)
Definition advance (c : MHD_Connection) (n : Z) : MHD_Connection :=
  {| daemon := daemon c; socket_fd := socket_fd c; state := state c;
     tls_session := tls_session c; sk_corked := sk_corked c;
     sk_nodelay := sk_nodelay c;
     epoll_state := epoll_state c; resp_sender := resp_sender c;
     response_write_position := response_write_position c + n;
     response := response c |}.

(** A response whose file offset lies past [off_t]:
    [fd_off + response_write_position = 2^63 + 100]. *)
Definition far_connection : MHD_Connection := {|
  daemon := {| options := 4 |};
  socket_fd := 7;
  state := 12;
  tls_session := 0;
  sk_corked := false;
  sk_nodelay := false;
  epoll_state := 3;
  resp_sender := MHD_resp_sender_sendfile;
  response_write_position := 100;
  response := {| fd := 9; fd_off := 2 ^ 63; total_size := 5000 |}
|}.

(** A thread-per-connection daemon, 3000000 bytes still to send. *)
Definition threaded_connection : MHD_Connection := {|
  daemon := {| options := 4 |};
  socket_fd := 7;
  state := 12;
  tls_session := 0;
  sk_corked := false;
  sk_nodelay := false;
  epoll_state := 3;
  resp_sender := MHD_resp_sender_sendfile;
  response_write_position := 1000000;
  response := {| fd := 9; fd_off := 0; total_size := 4000000 |}
|}.

(** A connection whose socket is [MHD_INVALID_SOCKET]. *)
Definition unconnected : MHD_Connection := {|
  daemon := {| options := 0 |};
  socket_fd := -1;
  state := 12;
  tls_session := 0;
  sk_corked := false;
  sk_nodelay := false;
  epoll_state := 0;
  resp_sender := MHD_resp_sender_std;
  response_write_position := 0;
  response := {| fd := -1; fd_off := 0; total_size := 0 |}
|}.

(** A connection whose cache already says no-delay. *)
Definition nodelay_connection : MHD_Connection :=
  set_sk_nodelay sample_connection true.

(** [send()] interrupted by a signal, and [send()] on a full socket
    buffer, with the [errno] values of [linux_build]. *)
Definition env_interrupted : Env := env_of (failure 4 0).
Definition env_not_writable : Env := env_of (failure 11 0).

(** A peer that went away: [EPIPE]. *)
Definition env_broken_pipe : Env := env_of (failure 32 0).

(** [EBUSY] after 5 bytes went out. *)
Definition env_busy_after_5 : Env := env_of (failure 16 5).

(** A transfer call that takes [n] bytes. *)
Definition accepted (n : Z) : reply :=
  {| r_ret := n; r_errno := 0; r_out := n |}.

(** [sendfile()] accepting 2000 bytes. *)
Definition env_of_ok : Env := env_of (accepted 2000).

Ltac case_if :=
  match goal with
  | |- context [if ?b then _ else _] => destruct b eqn:?
  end.

(** ** Further vocabulary: sequences of hook calls, and the static flags *)

(** A TLS connection of a daemon started with [MHD_USE_TLS], and a
    plaintext connection the cache holds as corked. *)
Definition tls_connection : MHD_Connection := {|
  daemon := {| options := 2 |};
  socket_fd := 7;
  state := 12;
  tls_session := 41;
  sk_corked := false;
  sk_nodelay := false;
  epoll_state := 3;
  resp_sender := MHD_resp_sender_std;
  response_write_position := 0;
  response := {| fd := -1; fd_off := 0; total_size := 0 |}
|}.

Definition corked_connection : MHD_Connection :=
  set_sk_corked sample_connection true.

(** Every mode-setting call answers 1; the transfer call answers [r]. *)
Definition env_setopt_1 (r : reply) : Env :=
  {| env_pre_setopt := accepted 1; env_transfer := r;
     env_post_setopt := accepted 1 |}.

(** The length [MHD_send_on_connection_] hands to its transfer call:
    [buffer_size] cut to [SSIZE_MAX] on the TLS path and to
    [MHD_SCKT_SEND_MAX_SIZE_] on the plaintext path. *)
Definition send_length {P : Platform} (c : MHD_Connection) (buffer_size : Z)
  : Z :=
  Z.min buffer_size
    (if tls_conn_of c then SSIZE_MAX else MHD_SCKT_SEND_MAX_SIZE_).

(** How each [sendfile()] family reports success and the bytes sent:
    Linux and Solaris return the count, negative on failure; FreeBSD and
    Darwin return zero and leave the count in [sent_bytes] or [len]. *)
Definition sendfile_succeeded {P : Platform} (r : reply) : Prop :=
  match SENDFILE with
  | LINUX_SENDFILE | SOLARIS_SENDFILE => 0 <= r_ret r
  | FREEBSD_SENDFILE | DARWIN_SENDFILE => r_ret r = 0
  end.

Definition sendfile_count {P : Platform} (r : reply) : Z :=
  match SENDFILE with
  | LINUX_SENDFILE | SOLARIS_SENDFILE => r_ret r
  | FREEBSD_SENDFILE | DARWIN_SENDFILE => r_out r
  end.

(** The scatter-gather call of the build on both buffers. *)
Definition scatter_gather_call {P : Platform} (s : Z)
    (header : list byte) (header_size : Z)
    (buffer : list byte) (buffer_size : Z) : syscall :=
  match SCATTER_GATHER with
  | USE_WRITEV =>
      writev s [(header, header_size); (buffer, buffer_size)] 2
  | _ =>
      sendmsg s [(header, header_size); (buffer, buffer_size)]
        MSG_NOSIGNAL_OR_ZERO
  end.

(** One call of a hook, with what the mode-setting primitive would answer. *)
Inductive hook_kind : Type :=
| PRE_SEND
| POST_SEND.

Record hook_call : Type := {
  hc_kind : hook_kind;
  hc_plain_send : bool;
  hc_push_data : bool;
  hc_reply : reply
}.

Definition run_hook {P : Platform} (c : MHD_Connection) (h : hook_call)
  : MHD_Connection * list syscall :=
  match hc_kind h with
  | PRE_SEND =>
      pre_send_setopt c (hc_plain_send h) (hc_push_data h) (hc_reply h)
  | POST_SEND =>
      post_send_setopt c (hc_plain_send h) (hc_push_data h) (hc_reply h)
  end.

(** Hook calls in a row on one connection, and all the calls they issue. *)
Fixpoint run_hooks {P : Platform} (c : MHD_Connection) (hs : list hook_call)
  : MHD_Connection * list syscall :=
  match hs with
  | [] => (c, [])
  | h :: hs =>
      let o := run_hook c h in
      let rest := run_hooks (fst o) hs in
      (fst rest, snd o ++ snd rest)
  end.

(** How often the cached mode changes along the way. *)
Fixpoint mode_transitions {P : Platform} (c : MHD_Connection)
    (hs : list hook_call) : nat :=
  match hs with
  | [] => 0
  | h :: hs =>
      let c' := fst (run_hook c h) in
      ((if Bool.eqb (cached_mode c') (cached_mode c) then 0 else 1)
       + mode_transitions c' hs)%nat
  end.

(** Buffer, push, buffer, push: each pre-hook asking to buffer is followed
    by a post-hook pushing, every mode-setting call answering 1. *)
Definition alternating_hooks : list hook_call :=
  let buffer_pre :=
    {| hc_kind := PRE_SEND; hc_plain_send := false; hc_push_data := false;
       hc_reply := accepted 1 |} in
  let push_post :=
    {| hc_kind := POST_SEND; hc_plain_send := false; hc_push_data := true;
       hc_reply := accepted 1 |} in
  [buffer_pre; buffer_pre; push_post; push_post; buffer_pre; push_post].

(** [MHD_send_init_static_vars_ ()] as compiled on FreeBSD 11 and later,
    where [SF_FLAGS] exists.  [SF_FLAGS] and [SF_NODISKIO] come from the
    system's [<sys/socket.h>]; [sys_page_size] is what
    [sysconf (_SC_PAGESIZE)] answered, a [long] of [long_bits] bits.  The
    result is the pair ([freebsd_sendfile_flags_],
    [freebsd_sendfile_flags_thd_p_c_]).  The sums are [long] arithmetic;
    where they leave the range of [long] the two's-complement wrap-around
    of the usual compilers is written out. *)
Section StaticVars.

Variable long_bits : Z.
Variable SF_FLAGS : Z -> Z -> Z.
Variable SF_NODISKIO : Z.

Definition to_uint16 (z : Z) : Z := z mod 2 ^ 16.

(** A value brought back into [long]. *)
Definition to_long (z : Z) : Z :=
  (z + 2 ^ (long_bits - 1)) mod 2 ^ long_bits - 2 ^ (long_bits - 1).

(** [(uint16_t) ((chunk + sys_page_size - 1) / sys_page_size)] *)
Definition readahead_pages (chunk sys_page_size : Z) : Z :=
  to_uint16
    (to_long
       (Z.quot (to_long (to_long (chunk + sys_page_size) - 1))
          sys_page_size)).

Definition MHD_send_init_static_vars_ (sys_page_size : Z) : Z * Z :=
  if sys_page_size <=? 0 then (SF_NODISKIO, SF_NODISKIO)
  else
    (SF_FLAGS (readahead_pages MHD_SENFILE_CHUNK_ sys_page_size) SF_NODISKIO,
     SF_FLAGS (readahead_pages MHD_SENFILE_CHUNK_THR_P_C_ sys_page_size)
       SF_NODISKIO).

End StaticVars.

(** * Properties *)

Create Rewrite HintDb conn.

(** ** The frame of a call *)

Lemma frame_eq_refl c : frame_eq c c.
Proof. now constructor. Qed.

Lemma frame_eq_trans c1 c2 c3 :
  frame_eq c1 c2 -> frame_eq c2 c3 -> frame_eq c1 c3.
Proof.
  intros [] []; constructor; congruence.
Qed.

Lemma frame_set_sk_corked c c' b :
  frame_eq c c' -> frame_eq c (set_sk_corked c' b).
Proof. intros []; now constructor. Qed.

Lemma frame_set_sk_nodelay c c' b :
  frame_eq c c' -> frame_eq c (set_sk_nodelay c' b).
Proof. intros []; now constructor. Qed.

Lemma frame_clear_write_ready {P : Platform} c c' :
  frame_eq c c' -> frame_eq c (clear_write_ready c').
Proof. intros []; now constructor. Qed.

Lemma frame_set_resp_sender c c' s :
  frame_eq c c' -> frame_eq c (set_resp_sender c' s).
Proof. intros []; now constructor. Qed.

Lemma cache_only_refl c : cache_only c c.
Proof. constructor; auto using frame_eq_refl. Qed.

Lemma cache_only_set_cached_mode {P : Platform} c b : cache_only c (set_cached_mode c b).
Proof.
  unfold set_cached_mode; destruct MHD_TCP_CORK_NOPUSH;
    repeat constructor.
Qed.

(** ** The two hooks *)

Lemma pre_send_setopt_outcome {P : Platform} c plain_send push_data r :
  hook_outcome c push_data r (pre_send_setopt c plain_send push_data r).
Proof.
  unfold pre_send_setopt.
  destruct (MHD_USE_MSG_MORE && plain_send); [constructor|].
  destruct MHD_TCP_CORK_NOPUSH eqn:Hcork.
  - destruct (Bool.eqb (sk_corked c) (negb push_data)) eqn:Heq;
      [constructor|].
    destruct push_data eqn:Hpush; [constructor|].
    apply eqb_false_iff in Heq.
    assert (Hne : cached_mode c <> desired_mode false)
      by (unfold cached_mode, desired_mode; now rewrite Hcork).
    replace (MHD_socket_cork_ (socket_fd c) (negb false))
      with (mode_set_call c (desired_mode false))
      by (unfold mode_set_call, desired_mode; now rewrite Hcork).
    destruct (negb (0 =? r_ret r)) eqn:Hret.
    + replace (set_sk_corked c (negb false))
        with (set_cached_mode c (desired_mode false))
        by (unfold set_cached_mode, desired_mode; now rewrite Hcork).
      apply hook_stored; [exact Hne|].
      unfold mode_set_succeeded, cork_succeeded; rewrite Hcork.
      now rewrite Z.eqb_sym.
    + apply hook_failed; [exact Hne|].
      unfold mode_set_succeeded, cork_succeeded; rewrite Hcork.
      now rewrite Z.eqb_sym.
  - destruct (Bool.eqb (sk_nodelay c) push_data) eqn:Heq; [constructor|].
    apply eqb_false_iff in Heq.
    assert (Hne : cached_mode c <> desired_mode push_data)
      by (unfold cached_mode, desired_mode; now rewrite Hcork).
    replace (MHD_socket_set_nodelay_ (socket_fd c) push_data)
      with (mode_set_call c (desired_mode push_data))
      by (unfold mode_set_call, desired_mode; now rewrite Hcork).
    destruct (0 =? r_ret r) eqn:Hret.
    + replace (set_sk_nodelay c push_data)
        with (set_cached_mode c (desired_mode push_data))
        by (unfold set_cached_mode, desired_mode; now rewrite Hcork).
      apply hook_stored; [exact Hne|].
      unfold mode_set_succeeded, nodelay_succeeded; rewrite Hcork.
      now rewrite Z.eqb_sym.
    + apply hook_failed; [exact Hne|].
      unfold mode_set_succeeded, nodelay_succeeded; rewrite Hcork.
      now rewrite Z.eqb_sym.
Qed.

Lemma post_send_setopt_outcome {P : Platform} c plain_send push_data r :
  hook_outcome c push_data r (post_send_setopt c plain_send push_data r).
Proof.
  unfold post_send_setopt.
  destruct (MHD_USE_MSG_MORE && plain_send); [constructor|].
  destruct MHD_TCP_CORK_NOPUSH eqn:Hcork; [|constructor].
  destruct (Bool.eqb (sk_corked c) (negb push_data)) eqn:Heq; [constructor|].
  destruct push_data eqn:Hpush; [|constructor].
  apply eqb_false_iff in Heq.
  assert (Hne : cached_mode c <> desired_mode true)
    by (unfold cached_mode, desired_mode; now rewrite Hcork).
  replace (MHD_socket_cork_ (socket_fd c) (negb true))
    with (mode_set_call c (desired_mode true))
    by (unfold mode_set_call, desired_mode; now rewrite Hcork).
  simpl negb at 1.
  destruct (negb (0 =? r_ret r)) eqn:Hret.
  - replace (set_sk_corked c (negb true))
      with (set_cached_mode c (desired_mode true))
      by (unfold set_cached_mode, desired_mode; now rewrite Hcork).
    apply hook_stored; [exact Hne|].
    unfold mode_set_succeeded, cork_succeeded; rewrite Hcork.
    now rewrite Z.eqb_sym.
  - apply hook_failed; [exact Hne|].
    unfold mode_set_succeeded, cork_succeeded; rewrite Hcork.
    now rewrite Z.eqb_sym.
Qed.

Lemma hook_outcome_cache_only {P : Platform} c push_data r out :
  hook_outcome c push_data r out -> cache_only c (fst out).
Proof.
  destruct 1; simpl; auto using cache_only_refl, cache_only_set_cached_mode.
Qed.

Lemma hook_outcome_cached {P : Platform} c push_data r out :
  hook_outcome c push_data r out ->
  cached_mode c = desired_mode push_data -> out = (c, []).
Proof.
  destruct 1; intros; congruence.
Qed.

Lemma hook_outcome_mode_set {P : Platform} c push_data r out :
  hook_outcome c push_data r out -> forallb is_mode_set (snd out) = true.
Proof.
  destruct 1; simpl; auto;
    unfold mode_set_call; destruct MHD_TCP_CORK_NOPUSH; reflexivity.
Qed.

Lemma pre_send_setopt_cache_only {P : Platform} c plain_send push_data r :
  cache_only c (fst (pre_send_setopt c plain_send push_data r)).
Proof.
  eapply hook_outcome_cache_only, pre_send_setopt_outcome.
Qed.

Lemma post_send_setopt_cache_only {P : Platform} c plain_send push_data r :
  cache_only c (fst (post_send_setopt c plain_send push_data r)).
Proof.
  eapply hook_outcome_cache_only, post_send_setopt_outcome.
Qed.

Lemma frame_pre_send_setopt {P : Platform} c c' plain_send push_data r :
  frame_eq c c' ->
  frame_eq c (fst (pre_send_setopt c' plain_send push_data r)).
Proof.
  intros H; eapply frame_eq_trans; [exact H|].
  apply pre_send_setopt_cache_only.
Qed.

Lemma frame_post_send_setopt {P : Platform} c c' plain_send push_data r :
  frame_eq c c' ->
  frame_eq c (fst (post_send_setopt c' plain_send push_data r)).
Proof.
  intros H; eapply frame_eq_trans; [exact H|].
  apply post_send_setopt_cache_only.
Qed.

Lemma filter_transfer_mode_set l :
  forallb is_mode_set l = true -> filter is_transfer l = [].
Proof.
  induction l as [|k l IH]; simpl; [reflexivity|].
  intros H; apply andb_prop in H as [Hk Hl].
  unfold is_transfer at 1; rewrite Hk; simpl; auto.
Qed.

Lemma pre_send_setopt_no_transfer {P : Platform} c plain_send push_data r :
  filter is_transfer (snd (pre_send_setopt c plain_send push_data r)) = [].
Proof.
  eapply filter_transfer_mode_set, hook_outcome_mode_set,
    pre_send_setopt_outcome.
Qed.

Lemma post_send_setopt_no_transfer {P : Platform} c plain_send push_data r :
  filter is_transfer (snd (post_send_setopt c plain_send push_data r)) = [].
Proof.
  eapply filter_transfer_mode_set, hook_outcome_mode_set,
    post_send_setopt_outcome.
Qed.

(** Every field outside the mode cache reads the same after a hook. *)

Lemma pre_daemon {P : Platform} c plain_send push_data r :
  daemon (fst (pre_send_setopt c plain_send push_data r)) = daemon c.
Proof. apply frame_daemon, cache_only_frame, pre_send_setopt_cache_only. Qed.

Lemma pre_socket_fd {P : Platform} c plain_send push_data r :
  socket_fd (fst (pre_send_setopt c plain_send push_data r)) = socket_fd c.
Proof. apply frame_socket_fd, cache_only_frame, pre_send_setopt_cache_only. Qed.

Lemma pre_state {P : Platform} c plain_send push_data r :
  state (fst (pre_send_setopt c plain_send push_data r)) = state c.
Proof. apply frame_state, cache_only_frame, pre_send_setopt_cache_only. Qed.

Lemma pre_tls_session {P : Platform} c plain_send push_data r :
  tls_session (fst (pre_send_setopt c plain_send push_data r)) = tls_session c.
Proof. apply frame_tls_session, cache_only_frame, pre_send_setopt_cache_only. Qed.

Lemma pre_response_write_position {P : Platform} c plain_send push_data r :
  response_write_position (fst (pre_send_setopt c plain_send push_data r)) = response_write_position c.
Proof. apply frame_write_position, cache_only_frame, pre_send_setopt_cache_only. Qed.

Lemma pre_response {P : Platform} c plain_send push_data r :
  response (fst (pre_send_setopt c plain_send push_data r)) = response c.
Proof. apply frame_response, cache_only_frame, pre_send_setopt_cache_only. Qed.

Lemma pre_epoll_state {P : Platform} c plain_send push_data r :
  epoll_state (fst (pre_send_setopt c plain_send push_data r)) = epoll_state c.
Proof. apply cache_only_epoll, pre_send_setopt_cache_only. Qed.

Lemma pre_resp_sender {P : Platform} c plain_send push_data r :
  resp_sender (fst (pre_send_setopt c plain_send push_data r)) = resp_sender c.
Proof. apply cache_only_sender, pre_send_setopt_cache_only. Qed.

Lemma post_daemon {P : Platform} c plain_send push_data r :
  daemon (fst (post_send_setopt c plain_send push_data r)) = daemon c.
Proof. apply frame_daemon, cache_only_frame, post_send_setopt_cache_only. Qed.

Lemma post_socket_fd {P : Platform} c plain_send push_data r :
  socket_fd (fst (post_send_setopt c plain_send push_data r)) = socket_fd c.
Proof. apply frame_socket_fd, cache_only_frame, post_send_setopt_cache_only. Qed.

Lemma post_state {P : Platform} c plain_send push_data r :
  state (fst (post_send_setopt c plain_send push_data r)) = state c.
Proof. apply frame_state, cache_only_frame, post_send_setopt_cache_only. Qed.

Lemma post_tls_session {P : Platform} c plain_send push_data r :
  tls_session (fst (post_send_setopt c plain_send push_data r)) = tls_session c.
Proof. apply frame_tls_session, cache_only_frame, post_send_setopt_cache_only. Qed.

Lemma post_response_write_position {P : Platform} c plain_send push_data r :
  response_write_position (fst (post_send_setopt c plain_send push_data r)) = response_write_position c.
Proof. apply frame_write_position, cache_only_frame, post_send_setopt_cache_only. Qed.

Lemma post_response {P : Platform} c plain_send push_data r :
  response (fst (post_send_setopt c plain_send push_data r)) = response c.
Proof. apply frame_response, cache_only_frame, post_send_setopt_cache_only. Qed.

Lemma post_epoll_state {P : Platform} c plain_send push_data r :
  epoll_state (fst (post_send_setopt c plain_send push_data r)) = epoll_state c.
Proof. apply cache_only_epoll, post_send_setopt_cache_only. Qed.

Lemma post_resp_sender {P : Platform} c plain_send push_data r :
  resp_sender (fst (post_send_setopt c plain_send push_data r)) = resp_sender c.
Proof. apply cache_only_sender, post_send_setopt_cache_only. Qed.

#[global] Hint Rewrite @pre_daemon @pre_socket_fd @pre_state @pre_tls_session @pre_response_write_position @pre_response @pre_epoll_state @pre_resp_sender @post_daemon @post_socket_fd @post_state @post_tls_session @post_response_write_position @post_response @post_epoll_state @post_resp_sender : conn.

Lemma pre_tls_conn_of {P : Platform} c plain_send push_data r :
  tls_conn_of (fst (pre_send_setopt c plain_send push_data r)) = tls_conn_of c.
Proof. unfold tls_conn_of; now autorewrite with conn. Qed.

Lemma pre_used_thr_p_c {P : Platform} c plain_send push_data r :
  used_thr_p_c (fst (pre_send_setopt c plain_send push_data r)) = used_thr_p_c c.
Proof. unfold used_thr_p_c; now autorewrite with conn. Qed.

Lemma pre_offsetu64 {P : Platform} c plain_send push_data r :
  offsetu64 (fst (pre_send_setopt c plain_send push_data r)) = offsetu64 c.
Proof. unfold offsetu64; now autorewrite with conn. Qed.

Lemma pre_left {P : Platform} c plain_send push_data r :
  left (fst (pre_send_setopt c plain_send push_data r)) = left c.
Proof. unfold left; now autorewrite with conn. Qed.

#[global] Hint Rewrite @pre_tls_conn_of @pre_used_thr_p_c @pre_offsetu64 @pre_left : conn.

Lemma pre_chunk_size {P : Platform} c plain_send push_data r :
  chunk_size (fst (pre_send_setopt c plain_send push_data r)) = chunk_size c.
Proof. unfold chunk_size; now autorewrite with conn. Qed.

#[global] Hint Rewrite @pre_chunk_size : conn.

Lemma pre_send_size {P : Platform} c plain_send push_data r :
  send_size (fst (pre_send_setopt c plain_send push_data r)) = send_size c.
Proof. unfold send_size; now autorewrite with conn. Qed.

#[global] Hint Rewrite @pre_send_size : conn.

Lemma post_tls_conn_of {P : Platform} c plain_send push_data r :
  tls_conn_of (fst (post_send_setopt c plain_send push_data r)) = tls_conn_of c.
Proof. unfold tls_conn_of; now autorewrite with conn. Qed.

Lemma post_used_thr_p_c {P : Platform} c plain_send push_data r :
  used_thr_p_c (fst (post_send_setopt c plain_send push_data r)) = used_thr_p_c c.
Proof. unfold used_thr_p_c; now autorewrite with conn. Qed.

Lemma post_offsetu64 {P : Platform} c plain_send push_data r :
  offsetu64 (fst (post_send_setopt c plain_send push_data r)) = offsetu64 c.
Proof. unfold offsetu64; now autorewrite with conn. Qed.

Lemma post_left {P : Platform} c plain_send push_data r :
  left (fst (post_send_setopt c plain_send push_data r)) = left c.
Proof. unfold left; now autorewrite with conn. Qed.

#[global] Hint Rewrite @post_tls_conn_of @post_used_thr_p_c @post_offsetu64 @post_left : conn.

Lemma post_chunk_size {P : Platform} c plain_send push_data r :
  chunk_size (fst (post_send_setopt c plain_send push_data r)) = chunk_size c.
Proof. unfold chunk_size; now autorewrite with conn. Qed.

#[global] Hint Rewrite @post_chunk_size : conn.

Lemma post_send_size {P : Platform} c plain_send push_data r :
  send_size (fst (post_send_setopt c plain_send push_data r)) = send_size c.
Proof. unfold send_size; now autorewrite with conn. Qed.

#[global] Hint Rewrite @post_send_size : conn.

Lemma pre_sendfile_flags {P : Platform} c plain_send push_data r :
  sendfile_flags (fst (pre_send_setopt c plain_send push_data r))
  = sendfile_flags c.
Proof. unfold sendfile_flags; now autorewrite with conn. Qed.

#[global] Hint Rewrite @pre_sendfile_flags : conn.

Lemma filter_transfer_pre {P : Platform} c plain_send push_data r l :
  filter is_transfer (snd (pre_send_setopt c plain_send push_data r) ++ l)
  = filter is_transfer l.
Proof. now rewrite filter_app, pre_send_setopt_no_transfer. Qed.

Lemma filter_transfer_post {P : Platform} c plain_send push_data r l :
  filter is_transfer (l ++ snd (post_send_setopt c plain_send push_data r))
  = filter is_transfer l.
Proof.
  now rewrite filter_app, post_send_setopt_no_transfer, app_nil_r.
Qed.

#[global] Hint Rewrite @filter_transfer_pre @filter_transfer_post @pre_send_setopt_no_transfer : conn.


Create HintDb frame.

#[global] Hint Resolve frame_eq_refl frame_set_sk_corked frame_set_sk_nodelay
  frame_set_resp_sender : frame.
#[global] Hint Resolve frame_clear_write_ready frame_pre_send_setopt
  frame_post_send_setopt : frame.

(** * The model at work *)

(** A socket that takes 4 of 10 bytes: the call reports 4 and, with epoll,
    clears the write-ready bit; the remaining 6 bytes then go out whole. *)
Example send_partial_then_rest :
  let first :=
    @MHD_send_on_connection_ linux_build sample_connection [] 10
      MHD_SSO_PUSH_DATA (env_of (accepted 4)) in
  let second :=
    @MHD_send_on_connection_ linux_build (res_conn first) [] 6
      MHD_SSO_PUSH_DATA (env_of (accepted 6)) in
  res_ret first = 4
  /\ epoll_state (res_conn first) = 1
  /\ res_trace first = [MHD_send4_ 7 [] 10 0]
  /\ res_ret second = 6.
Proof. cbv zeta; repeat split; reflexivity. Qed.

(** With [MSG_MORE] a buffered plaintext send needs no mode-setting call:
    the flag travels with [send()]. *)
Example send_buffered_msg_more :
  res_trace
    (@MHD_send_on_connection_ linux_build sample_connection [] 10
       MHD_SSO_PREFER_BUFF (env_of (accepted 10)))
  = [MHD_send4_ 7 [] 10 (@MSG_MORE linux_build)].
Proof. reflexivity. Qed.

(** Without cork and [MSG_MORE], pushing turns Nagle's algorithm off before
    the transfer, once: the second call finds the mode cached. *)
Example push_sets_nodelay_once :
  let first :=
    @MHD_send_on_connection_ plain_build sample_connection [] 2000
      MHD_SSO_HDR_CORK (env_of (accepted 2000)) in
  let second :=
    @MHD_send_on_connection_ plain_build (res_conn first) [] 2000
      MHD_SSO_HDR_CORK (env_of (accepted 2000)) in
  res_trace first
  = [MHD_socket_set_nodelay_ 7 true; MHD_send4_ 7 [] 2000 0]
  /\ sk_nodelay (res_conn first) = true
  /\ res_trace second = [MHD_send4_ 7 [] 2000 0].
Proof. cbv zeta; repeat split; reflexivity. Qed.

(** A connection without a socket is refused before any call is made. *)
Example send_without_socket :
  @MHD_send_on_connection_ linux_build unconnected [] 10 MHD_SSO_PUSH_DATA
    env_interrupted
  = mk_result (@MHD_ERR_NOTCONN_ linux_build) unconnected [].
Proof. reflexivity. Qed.

(** The last chunk of a file on the Linux build: 2000 bytes were left and
    2000 went out. *)
Example sendfile_last_chunk :
  let c := advance sample_connection 998000 in
  let res := @MHD_send_sendfile_ linux_build c env_of_ok in
  left c = 2000
  /\ res_ret res = 2000
  /\ res_trace res = [sendfile 7 9 998000 2000 0]
  /\ epoll_state (res_conn res) = 3.
Proof. cbv zeta; repeat split; reflexivity. Qed.

(** * Statements about the layer *)

Ltac expose_result :=
  unfold transfer_outcome, mk_result, clear_write_ready, with_setopt_replies,
    set_epoll_state, set_resp_sender;
  cbn [res_ret res_conn res_trace fst snd
       env_pre_setopt env_transfer env_post_setopt
       daemon socket_fd state tls_session sk_corked sk_nodelay
       epoll_state resp_sender response_write_position response].

Lemma send_transfer_outcome {P : Platform} c buffer n opts env r_pre r_post :
  transfer_outcome
    (MHD_send_on_connection_ c buffer n opts
       (with_setopt_replies env r_pre r_post))
  = transfer_outcome (MHD_send_on_connection_ c buffer n opts env).
Proof.
  unfold MHD_send_on_connection_; cbv zeta; expose_result.
  autorewrite with conn.
  repeat case_if; expose_result; autorewrite with conn; expose_result;
    autorewrite with conn; reflexivity.
Qed.

Lemma send2_transfer_outcome {P : Platform} c header hn buffer n env
    r_pre r_post :
  transfer_outcome
    (MHD_send_on_connection2_ c header hn buffer n
       (with_setopt_replies env r_pre r_post))
  = transfer_outcome (MHD_send_on_connection2_ c header hn buffer n env).
Proof.
  unfold MHD_send_on_connection2_.
  destruct (HTTPS_SUPPORT && tls_conn_of c);
    [apply send_transfer_outcome|].
  destruct SCATTER_GATHER; try apply send_transfer_outcome;
    cbv zeta; expose_result; autorewrite with conn;
    repeat case_if; expose_result; autorewrite with conn; reflexivity.
Qed.

Lemma sendfile_transfer_outcome {P : Platform} c env r_pre r_post :
  transfer_outcome (MHD_send_sendfile_ c (with_setopt_replies env r_pre r_post))
  = transfer_outcome (MHD_send_sendfile_ c env).
Proof.
  unfold MHD_send_sendfile_, sendfile_linux_solaris, sendfile_freebsd,
    sendfile_darwin, sendfile_finish.
  cbv zeta; expose_result; autorewrite with conn.
  destruct SENDFILE;
    repeat case_if; expose_result; autorewrite with conn; reflexivity.
Qed.

(** C2.  Both hooks, on every build: when the cached buffering mode
    already is the one asked for, no mode-setting call is issued and the
    connection is returned as it was; in general a hook either does
    nothing, or issues exactly one mode-setting call, and it stores the new
    mode only when that call reported success, a failed call leaving the
    connection untouched.  And whatever the mode-setting calls answer, the
    three transmission calls return the same value, leave the same epoll
    state and transmission strategy and issue the same transfer call. *)
Theorem setopt_cache_discipline {P : Platform} :
  (forall c plain_send push_data r,
      cached_mode c = desired_mode push_data ->
      pre_send_setopt c plain_send push_data r = (c, [])
      /\ post_send_setopt c plain_send push_data r = (c, []))
  /\ (forall c plain_send push_data r,
      hook_outcome c push_data r (pre_send_setopt c plain_send push_data r)
      /\ hook_outcome c push_data r
           (post_send_setopt c plain_send push_data r))
  /\ (forall c header hn buffer n opts env r_pre r_post,
      transfer_outcome
        (MHD_send_on_connection_ c buffer n opts
           (with_setopt_replies env r_pre r_post))
      = transfer_outcome (MHD_send_on_connection_ c buffer n opts env)
      /\ transfer_outcome
           (MHD_send_on_connection2_ c header hn buffer n
              (with_setopt_replies env r_pre r_post))
         = transfer_outcome
             (MHD_send_on_connection2_ c header hn buffer n env)
      /\ transfer_outcome
           (MHD_send_sendfile_ c (with_setopt_replies env r_pre r_post))
         = transfer_outcome (MHD_send_sendfile_ c env)).
Proof.
  split; [|split].
  - intros c plain_send push_data r Hcached; split.
    + eapply hook_outcome_cached;
        [apply pre_send_setopt_outcome | exact Hcached].
    + eapply hook_outcome_cached;
        [apply post_send_setopt_outcome | exact Hcached].
  - intros; split;
      [apply pre_send_setopt_outcome | apply post_send_setopt_outcome].
  - intros; repeat split;
      auto using send_transfer_outcome, send2_transfer_outcome,
        sendfile_transfer_outcome.
Qed.

Lemma setopt_cache_discipline_witness :
  @cached_mode plain_build nodelay_connection = @desired_mode plain_build true
  /\ @pre_send_setopt plain_build nodelay_connection true true
       (failure 9 0) = (nodelay_connection, [])
  /\ @post_send_setopt plain_build nodelay_connection true true
       (failure 9 0) = (nodelay_connection, []).
Proof.
  split; [reflexivity|].
  apply (proj1 (@setopt_cache_discipline plain_build)).
  reflexivity.
Defined.

(** What the two branches store, in terms of the helpers' raw return
    values: a pre-hook that has to switch no-delay ends with the new mode
    cached exactly when [MHD_socket_set_nodelay_] returned zero; one that
    has to cork, exactly when [MHD_socket_cork_] returned non-zero. *)
Lemma nodelay_stored_iff_zero {P : Platform} c plain_send push_data r :
  MHD_TCP_CORK_NOPUSH = false ->
  MHD_USE_MSG_MORE && plain_send = false ->
  sk_nodelay c <> push_data ->
  sk_nodelay (fst (pre_send_setopt c plain_send push_data r)) = push_data
  <-> r_ret r = 0.
Proof.
  intros Hcork Hmore Hne.
  unfold pre_send_setopt; rewrite Hcork, Hmore.
  replace (Bool.eqb (sk_nodelay c) push_data) with false
    by (symmetry; now apply eqb_false_iff).
  cbn [fst].
  destruct (Z.eqb_spec 0 (r_ret r)) as [Hz | Hz]; simpl; split; intros;
    congruence.
Qed.

Lemma cork_stored_iff_nonzero {P : Platform} c plain_send r :
  MHD_TCP_CORK_NOPUSH = true ->
  MHD_USE_MSG_MORE && plain_send = false ->
  sk_corked c = false ->
  sk_corked (fst (pre_send_setopt c plain_send false r)) = true
  <-> r_ret r <> 0.
Proof.
  intros Hcork Hmore Hne.
  unfold pre_send_setopt; rewrite Hcork, Hmore, Hne.
  cbn [negb Bool.eqb fst].
  destruct (Z.eqb_spec 0 (r_ret r)) as [Hz | Hz]; simpl; split; intros;
    congruence.
Qed.

(** Three replies are all a call can consume: it issues at most three
    system calls. *)
Lemma hook_outcome_length {P : Platform} c push_data r out :
  hook_outcome c push_data r out -> (length (snd out) <= 1)%nat.
Proof. destruct 1; simpl; auto. Qed.

Ltac hook_lengths :=
  repeat match goal with
  | |- context [snd (pre_send_setopt ?c ?p ?q ?r)] =>
      let H := fresh "Hlen" in
      pose proof (hook_outcome_length _ _ _ _
                    (pre_send_setopt_outcome c p q r)) as H;
      generalize dependent (snd (pre_send_setopt c p q r)); intros
  | |- context [snd (post_send_setopt ?c ?p ?q ?r)] =>
      let H := fresh "Hlen" in
      pose proof (hook_outcome_length _ _ _ _
                    (post_send_setopt_outcome c p q r)) as H;
      generalize dependent (snd (post_send_setopt c p q r)); intros
  end.

Ltac count_calls :=
  repeat case_if; unfold mk_result; cbn [res_trace];
  hook_lengths; repeat rewrite length_app; cbn [length]; lia.

Lemma send_at_most_three_calls {P : Platform} c buffer n opts env :
  (length (res_trace (MHD_send_on_connection_ c buffer n opts env)) <= 3)%nat.
Proof.
  unfold MHD_send_on_connection_; cbv zeta; count_calls.
Qed.

Lemma send2_at_most_three_calls {P : Platform} c header hn buffer n env :
  (length (res_trace (MHD_send_on_connection2_ c header hn buffer n env))
   <= 3)%nat.
Proof.
  unfold MHD_send_on_connection2_.
  destruct (HTTPS_SUPPORT && tls_conn_of c);
    [apply send_at_most_three_calls|].
  destruct SCATTER_GATHER; try apply send_at_most_three_calls;
    cbv zeta; count_calls.
Qed.

Lemma sendfile_at_most_three_calls {P : Platform} c env :
  (length (res_trace (MHD_send_sendfile_ c env)) <= 3)%nat.
Proof.
  unfold MHD_send_sendfile_, sendfile_linux_solaris, sendfile_freebsd,
    sendfile_darwin, sendfile_finish; cbv zeta.
  destruct SENDFILE; count_calls.
Qed.

(** ** Plaintext [send()] failures *)

Lemma send_plain_failure {P : Platform} c buffer n opts env :
  tls_conn_of c = false ->
  socket_fd c <> MHD_INVALID_SOCKET ->
  state c <> MHD_CONNECTION_CLOSED ->
  r_ret (env_transfer env) < 0 ->
  let err := r_errno (env_transfer env) in
  let res := MHD_send_on_connection_ c buffer n opts env in
  res_ret res
  = (if MHD_SCKT_ERR_IS_EAGAIN_ err then MHD_ERR_AGAIN_
     else if MHD_SCKT_ERR_IS_EINTR_ err then MHD_ERR_AGAIN_
     else if MHD_SCKT_ERR_IS_ err MHD_SCKT_ECONNRESET_
          then MHD_ERR_CONNRESET_
     else MHD_ERR_NOTCONN_)
  /\ epoll_state (res_conn res)
     = (if EPOLL_SUPPORT && MHD_SCKT_ERR_IS_EAGAIN_ err
        then Z.land (epoll_state c) (Z.lnot MHD_EPOLL_STATE_WRITE_READY)
        else epoll_state c).
Proof.
  intros Htls Hsock Hstate Hret err res; subst err res.
  unfold MHD_send_on_connection_; cbv zeta.
  rewrite Htls.
  replace (MHD_INVALID_SOCKET =? socket_fd c) with false
    by (symmetry; apply Z.eqb_neq; congruence).
  replace (MHD_CONNECTION_CLOSED =? state c) with false
    by (symmetry; apply Z.eqb_neq; congruence).
  replace (r_ret (env_transfer env) <? 0) with true
    by (symmetry; now apply Z.ltb_lt).
  cbn [orb].
  destruct (MHD_SCKT_ERR_IS_EAGAIN_ (r_errno (env_transfer env)));
    [destruct EPOLL_SUPPORT; expose_result; autorewrite with conn; auto|].
  rewrite andb_false_r.
  repeat case_if; expose_result; autorewrite with conn; auto.
Qed.

(** C1 (as amended).  A failing plaintext [send()] in
    [MHD_send_on_connection_] is classified by the error it left: an
    [EAGAIN]-class error returns [MHD_ERR_AGAIN_] and, where epoll is
    compiled in, clears the write-ready flag; an interrupted call returns
    the same [MHD_ERR_AGAIN_] and leaves the flag alone; a connection reset
    returns [MHD_ERR_CONNRESET_]; anything else returns
    [MHD_ERR_NOTCONN_].  So the two retry conditions share one return
    value, and neither is ever answered with another code. *)
Theorem send_error_classification {P : Platform} c buffer n opts env :
  tls_conn_of c = false ->
  socket_fd c <> MHD_INVALID_SOCKET ->
  state c <> MHD_CONNECTION_CLOSED ->
  r_ret (env_transfer env) < 0 ->
  let err := r_errno (env_transfer env) in
  let res := MHD_send_on_connection_ c buffer n opts env in
  (MHD_SCKT_ERR_IS_EAGAIN_ err = true ->
     res_ret res = MHD_ERR_AGAIN_
     /\ epoll_state (res_conn res)
        = (if EPOLL_SUPPORT
           then Z.land (epoll_state c) (Z.lnot MHD_EPOLL_STATE_WRITE_READY)
           else epoll_state c))
  /\ (MHD_SCKT_ERR_IS_EAGAIN_ err = false ->
      MHD_SCKT_ERR_IS_EINTR_ err = true ->
      res_ret res = MHD_ERR_AGAIN_
      /\ epoll_state (res_conn res) = epoll_state c)
  /\ (retry_class err = false ->
      MHD_SCKT_ERR_IS_ err MHD_SCKT_ECONNRESET_ = true ->
      res_ret res = MHD_ERR_CONNRESET_)
  /\ (retry_class err = false ->
      MHD_SCKT_ERR_IS_ err MHD_SCKT_ECONNRESET_ = false ->
      res_ret res = MHD_ERR_NOTCONN_)
  /\ (retry_class err = true -> res_ret res = MHD_ERR_AGAIN_).
Proof.
  intros Htls Hsock Hstate Hret err res.
  destruct (send_plain_failure c buffer n opts env Htls Hsock Hstate Hret)
    as [Hr He].
  fold err in Hr, He; fold res in Hr, He.
  unfold retry_class.
  split; [|split; [|split; [|split]]].
  - intros Ha; split; [now rewrite Hr, Ha|].
    rewrite He, Ha; now destruct EPOLL_SUPPORT.
  - intros Ha Hi; split; [now rewrite Hr, Ha, Hi|].
    rewrite He, Ha; now rewrite andb_false_r.
  - intros Hn Hc; apply orb_false_elim in Hn as [Ha Hi].
    now rewrite Hr, Ha, Hi, Hc.
  - intros Hn Hc; apply orb_false_elim in Hn as [Ha Hi].
    now rewrite Hr, Ha, Hi, Hc.
  - intros Hn; rewrite Hr.
    destruct (MHD_SCKT_ERR_IS_EAGAIN_ err); [reflexivity|].
    simpl in Hn; now rewrite Hn.
Qed.

Lemma send_error_classification_witness :
  @tls_conn_of linux_build sample_connection = false
  /\ socket_fd sample_connection <> @MHD_INVALID_SOCKET linux_build
  /\ state sample_connection <> @MHD_CONNECTION_CLOSED linux_build
  /\ r_ret (env_transfer env_interrupted) < 0
  /\ @MHD_SCKT_ERR_IS_EAGAIN_ linux_build 4 = false
  /\ @MHD_SCKT_ERR_IS_EINTR_ linux_build 4 = true
  /\ res_ret
       (@MHD_send_on_connection_ linux_build sample_connection [] 10
          MHD_SSO_PUSH_DATA env_interrupted)
     = @MHD_ERR_AGAIN_ linux_build
  /\ epoll_state
       (res_conn
          (@MHD_send_on_connection_ linux_build sample_connection [] 10
             MHD_SSO_PUSH_DATA env_interrupted))
     = epoll_state sample_connection.
Proof.
  assert (H1 : @tls_conn_of linux_build sample_connection = false)
    by reflexivity.
  assert (H2 : socket_fd sample_connection <> @MHD_INVALID_SOCKET linux_build)
    by (vm_compute; discriminate).
  assert (H3 : state sample_connection <> @MHD_CONNECTION_CLOSED linux_build)
    by (vm_compute; discriminate).
  assert (H4 : r_ret (env_transfer env_interrupted) < 0)
    by (vm_compute; reflexivity).
  repeat (split; [first [assumption | reflexivity]|]).
  apply (proj1 (proj2
    (@send_error_classification linux_build sample_connection [] 10
       MHD_SSO_PUSH_DATA env_interrupted H1 H2 H3 H4)));
    reflexivity.
Defined.

(** C1 (as stated) fails.  On a build without epoll, an interrupted
    [send()] and a [send()] on a socket that is not writable give the very
    same result: return value, connection and system calls.  The two are
    not distinct outcomes. *)
Lemma retry_outcomes_coincide :
  let interrupted :=
    @MHD_send_on_connection_ plain_build sample_connection [] 10
      MHD_SSO_PUSH_DATA env_interrupted in
  let not_writable :=
    @MHD_send_on_connection_ plain_build sample_connection [] 10
      MHD_SSO_PUSH_DATA env_not_writable in
  @MHD_SCKT_ERR_IS_EINTR_ plain_build (r_errno (env_transfer env_interrupted))
  = true
  /\ @MHD_SCKT_ERR_IS_EAGAIN_ plain_build
       (r_errno (env_transfer env_not_writable)) = true
  /\ interrupted = not_writable
  /\ ~ (res_ret interrupted <> res_ret not_writable).
Proof.
  cbv zeta; repeat split; try reflexivity.
  intros H; apply H; reflexivity.
Qed.

(** ** Failures of [sendfile()] *)

Ltac sendfile_failure Hvariant Hoff :=
  unfold MHD_send_sendfile_, sendfile_linux_solaris, sendfile_freebsd,
    sendfile_darwin;
  cbv zeta; autorewrite with conn;
  rewrite Hvariant;
  match goal with
  | |- context [max_off_t <? ?o] =>
      replace (max_off_t <? o) with false
        by (symmetry; apply Z.ltb_ge; exact Hoff)
  end.

Lemma ltb_neg x : x < 0 -> (x <? 0) = true.
Proof. apply Z.ltb_lt. Qed.

Lemma eqb_nonzero x : x <> 0 -> negb (0 =? x) = true.
Proof.
  intros H; apply negb_true_iff, Z.eqb_neq; congruence.
Qed.

Lemma sendfile_solaris_reset {P : Platform} c env :
  SENDFILE = SOLARIS_SENDFILE ->
  offsetu64 c <= max_off_t ->
  r_ret (env_transfer env) < 0 ->
  let err := r_errno (env_transfer env) in
  retry_class err = false ->
  (EAFNOSUPPORT =? err) || (EINVAL =? err) || (EOPNOTSUPP =? err) = false ->
  reset_class err = true ->
  res_ret (MHD_send_sendfile_ c env) = MHD_ERR_CONNRESET_
  /\ resp_sender (res_conn (MHD_send_sendfile_ c env)) = resp_sender c.
Proof.
  intros Hv Hoff Hret err Hretry Hfall Hreset; subst err.
  apply orb_false_elim in Hretry as [Ha Hi].
  unfold reset_class in Hreset.
  sendfile_failure Hv Hoff.
  rewrite (ltb_neg _ Hret), Ha, Hi, Hfall, Hreset.
  expose_result; autorewrite with conn; auto.
Qed.

Lemma sendfile_darwin_reset {P : Platform} c env :
  SENDFILE = DARWIN_SENDFILE ->
  offsetu64 c <= max_off_t ->
  r_ret (env_transfer env) <> 0 ->
  let err := r_errno (env_transfer env) in
  retry_class err = false ->
  reset_class err = true ->
  res_ret (MHD_send_sendfile_ c env) = MHD_ERR_CONNRESET_
  /\ resp_sender (res_conn (MHD_send_sendfile_ c env)) = resp_sender c.
Proof.
  intros Hv Hoff Hret err Hretry Hreset; subst err.
  unfold retry_class in Hretry; unfold reset_class in Hreset.
  sendfile_failure Hv Hoff.
  rewrite (eqb_nonzero _ Hret), Hretry, Hreset.
  expose_result; autorewrite with conn; auto.
Qed.

Lemma sendfile_linux_downgrade {P : Platform} c env :
  SENDFILE = LINUX_SENDFILE ->
  offsetu64 c <= max_off_t ->
  r_ret (env_transfer env) < 0 ->
  let err := r_errno (env_transfer env) in
  retry_class err = false ->
  MHD_SCKT_ERR_IS_ err MHD_SCKT_EBADF_ = false ->
  res_ret (MHD_send_sendfile_ c env) = MHD_ERR_AGAIN_
  /\ resp_sender (res_conn (MHD_send_sendfile_ c env)) = MHD_resp_sender_std.
Proof.
  intros Hv Hoff Hret err Hretry Hbadf; subst err.
  apply orb_false_elim in Hretry as [Ha Hi].
  sendfile_failure Hv Hoff.
  rewrite (ltb_neg _ Hret), Ha, Hi, Hbadf.
  expose_result; auto.
Qed.

Lemma sendfile_freebsd_downgrade {P : Platform} c env :
  SENDFILE = FREEBSD_SENDFILE ->
  offsetu64 c <= max_off_t ->
  r_ret (env_transfer env) <> 0 ->
  let err := r_errno (env_transfer env) in
  retry_class err || (EBUSY =? err) = false ->
  res_ret (MHD_send_sendfile_ c env) = MHD_ERR_AGAIN_
  /\ resp_sender (res_conn (MHD_send_sendfile_ c env)) = MHD_resp_sender_std.
Proof.
  intros Hv Hoff Hret err Hretry; subst err.
  unfold retry_class in Hretry.
  sendfile_failure Hv Hoff.
  rewrite (eqb_nonzero _ Hret), Hretry.
  expose_result; auto.
Qed.

(** C3 (as amended).  When [sendfile()] fails with [ENOTCONN] or [EPIPE]
    (an error outside the retry class): the Solaris and the Darwin blocks
    return [MHD_ERR_CONNRESET_] and leave [resp_sender] as it was, Solaris
    provided the code is none of those it tests first; the Linux block
    (unless the code is [EBADF]) and the FreeBSD block (unless it is
    [EBUSY]) switch [resp_sender] to [MHD_resp_sender_std] and return
    [MHD_ERR_AGAIN_]. *)
Theorem sendfile_reset_classification {P : Platform} c env :
  offsetu64 c <= max_off_t ->
  let err := r_errno (env_transfer env) in
  let res := MHD_send_sendfile_ c env in
  reset_class err = true ->
  retry_class err = false ->
  (SENDFILE = SOLARIS_SENDFILE ->
   r_ret (env_transfer env) < 0 ->
   (EAFNOSUPPORT =? err) || (EINVAL =? err) || (EOPNOTSUPP =? err) = false ->
   res_ret res = MHD_ERR_CONNRESET_
   /\ resp_sender (res_conn res) = resp_sender c)
  /\ (SENDFILE = DARWIN_SENDFILE ->
      r_ret (env_transfer env) <> 0 ->
      res_ret res = MHD_ERR_CONNRESET_
      /\ resp_sender (res_conn res) = resp_sender c)
  /\ (SENDFILE = LINUX_SENDFILE ->
      r_ret (env_transfer env) < 0 ->
      MHD_SCKT_ERR_IS_ err MHD_SCKT_EBADF_ = false ->
      res_ret res = MHD_ERR_AGAIN_
      /\ resp_sender (res_conn res) = MHD_resp_sender_std)
  /\ (SENDFILE = FREEBSD_SENDFILE ->
      r_ret (env_transfer env) <> 0 ->
      (EBUSY =? err) = false ->
      res_ret res = MHD_ERR_AGAIN_
      /\ resp_sender (res_conn res) = MHD_resp_sender_std).
Proof.
  intros Hoff err res Hreset Hretry.
  split; [|split; [|split]].
  - intros Hv Hret Hfall.
    now apply sendfile_solaris_reset.
  - intros Hv Hret.
    now apply sendfile_darwin_reset.
  - intros Hv Hret Hbadf.
    now apply sendfile_linux_downgrade.
  - intros Hv Hret Hbusy.
    apply sendfile_freebsd_downgrade; auto.
    fold err; now rewrite Hretry, Hbusy.
Qed.

Lemma sendfile_reset_classification_witness :
  offsetu64 sample_connection <= @max_off_t solaris_build
  /\ @reset_class solaris_build (r_errno (env_transfer env_broken_pipe))
     = true
  /\ @retry_class solaris_build (r_errno (env_transfer env_broken_pipe))
     = false
  /\ @SENDFILE solaris_build = SOLARIS_SENDFILE
  /\ r_ret (env_transfer env_broken_pipe) < 0
  /\ res_ret (@MHD_send_sendfile_ solaris_build sample_connection
                env_broken_pipe)
     = @MHD_ERR_CONNRESET_ solaris_build
  /\ resp_sender
       (res_conn (@MHD_send_sendfile_ solaris_build sample_connection
                    env_broken_pipe))
     = resp_sender sample_connection.
Proof.
  assert (H1 : offsetu64 sample_connection
               <= @max_off_t solaris_build)
    by (vm_compute; discriminate).
  assert (H2 : @reset_class solaris_build
                 (r_errno (env_transfer env_broken_pipe)) = true)
    by reflexivity.
  assert (H3 : @retry_class solaris_build
                 (r_errno (env_transfer env_broken_pipe)) = false)
    by reflexivity.
  assert (H4 : r_ret (env_transfer env_broken_pipe) < 0)
    by (vm_compute; reflexivity).
  repeat (split; [first [assumption | reflexivity]|]).
  apply (proj1
    (@sendfile_reset_classification solaris_build sample_connection
       env_broken_pipe H1 H2 H3));
    [reflexivity | exact H4 | reflexivity].
Defined.

(** C3 (as stated) fails.  On the Linux build a [sendfile()] that fails
    with [EPIPE] does not return [MHD_ERR_CONNRESET_]: it returns
    [MHD_ERR_AGAIN_] and switches the connection to the buffer-copy
    sender. *)
Lemma sendfile_linux_epipe_downgrades :
  let res :=
    @MHD_send_sendfile_ linux_build sample_connection env_broken_pipe in
  r_ret (env_transfer env_broken_pipe) < 0
  /\ r_errno (env_transfer env_broken_pipe) = @EPIPE linux_build
  /\ resp_sender sample_connection = MHD_resp_sender_sendfile
  /\ res_ret res = @MHD_ERR_AGAIN_ linux_build
  /\ resp_sender (res_conn res) = MHD_resp_sender_std
  /\ ~ (res_ret res = @MHD_ERR_CONNRESET_ linux_build
        /\ resp_sender (res_conn res) = resp_sender sample_connection).
Proof.
  cbv zeta; repeat split; try reflexivity.
  intros [H _]; vm_compute in H; discriminate.
Qed.

(** ** Partial progress reported with a failure *)

Lemma sendfile_freebsd_retry {P : Platform} c env :
  SENDFILE = FREEBSD_SENDFILE ->
  offsetu64 c <= max_off_t ->
  r_ret (env_transfer env) <> 0 ->
  retry_class (r_errno (env_transfer env))
  || (EBUSY =? r_errno (env_transfer env)) = true ->
  MHD_send_sendfile_ c env
  = mk_result
      (if negb (0 =? r_out (env_transfer env)) then r_out (env_transfer env)
       else MHD_ERR_AGAIN_)
      (fst (pre_send_setopt c false true (env_pre_setopt env)))
      (res_trace (MHD_send_sendfile_ c env)).
Proof.
  intros Hv Hoff Hret Hretry.
  unfold retry_class in Hretry.
  sendfile_failure Hv Hoff.
  rewrite (eqb_nonzero _ Hret), Hretry.
  now case_if.
Qed.

Lemma sendfile_darwin_retry {P : Platform} c env :
  SENDFILE = DARWIN_SENDFILE ->
  offsetu64 c <= max_off_t ->
  r_ret (env_transfer env) <> 0 ->
  retry_class (r_errno (env_transfer env)) = true ->
  MHD_send_sendfile_ c env
  = mk_result
      (if negb (0 =? r_out (env_transfer env)) then r_out (env_transfer env)
       else MHD_ERR_AGAIN_)
      (fst (pre_send_setopt c false true (env_pre_setopt env)))
      (res_trace (MHD_send_sendfile_ c env)).
Proof.
  intros Hv Hoff Hret Hretry.
  unfold retry_class in Hretry.
  sendfile_failure Hv Hoff.
  rewrite (eqb_nonzero _ Hret), Hretry.
  now case_if.
Qed.

(** C9 (as amended).  On the FreeBSD build, a [sendfile()] that fails with
    [EAGAIN], [EINTR] or [EBUSY], and on the Darwin build one that fails
    with [EAGAIN] or [EINTR], returns the [n] bytes it reports as sent when
    [n > 0], and [MHD_ERR_AGAIN_] when [n = 0]; either way the epoll state
    and the transmission strategy stay as they were. *)
Theorem sendfile_partial_progress {P : Platform} c env :
  offsetu64 c <= max_off_t ->
  r_ret (env_transfer env) <> 0 ->
  let err := r_errno (env_transfer env) in
  let n := r_out (env_transfer env) in
  let res := MHD_send_sendfile_ c env in
  (SENDFILE = FREEBSD_SENDFILE /\ retry_class err || (EBUSY =? err) = true)
  \/ (SENDFILE = DARWIN_SENDFILE /\ retry_class err = true) ->
  (0 < n -> res_ret res = n)
  /\ (n = 0 -> res_ret res = MHD_ERR_AGAIN_)
  /\ resp_sender (res_conn res) = resp_sender c
  /\ epoll_state (res_conn res) = epoll_state c.
Proof.
  intros Hoff Hret err n res Hcase.
  assert (Heq : res
    = mk_result (if negb (0 =? n) then n else MHD_ERR_AGAIN_)
        (fst (pre_send_setopt c false true (env_pre_setopt env)))
        (res_trace res)).
  { destruct Hcase as [[Hv Hr] | [Hv Hr]].
    - now apply sendfile_freebsd_retry.
    - now apply sendfile_darwin_retry. }
  rewrite Heq; expose_result; autorewrite with conn.
  repeat split.
  - intros Hn. replace (0 =? n) with false; [reflexivity|].
    symmetry; apply Z.eqb_neq; lia.
  - intros Hn; now rewrite Hn.
Qed.

Lemma sendfile_partial_progress_witness :
  offsetu64 sample_connection <= @max_off_t freebsd_build
  /\ r_ret (env_transfer env_busy_after_5) <> 0
  /\ @SENDFILE freebsd_build = FREEBSD_SENDFILE
  /\ r_errno (env_transfer env_busy_after_5) = @EBUSY freebsd_build
  /\ 0 < r_out (env_transfer env_busy_after_5)
  /\ res_ret (@MHD_send_sendfile_ freebsd_build sample_connection
                env_busy_after_5) = 5.
Proof.
  assert (H1 : offsetu64 sample_connection <= @max_off_t freebsd_build)
    by (vm_compute; discriminate).
  assert (H2 : r_ret (env_transfer env_busy_after_5) <> 0)
    by (vm_compute; discriminate).
  assert (H3 : 0 < r_out (env_transfer env_busy_after_5))
    by (vm_compute; reflexivity).
  repeat (split; [first [assumption | reflexivity]|]).
  apply (proj1
    (@sendfile_partial_progress freebsd_build sample_connection
       env_busy_after_5 H1 H2 (or_introl (conj eq_refl eq_refl)))).
  exact H3.
Defined.

(** C9 (as stated) fails.  On the Darwin build a [sendfile()] that fails
    with [EBUSY] after 5 bytes does not return 5: [EBUSY] is not among the
    codes the Darwin block retries on, and the call returns
    [MHD_ERR_BADF_]. *)
Lemma sendfile_darwin_ebusy_not_partial :
  let res :=
    @MHD_send_sendfile_ darwin_build sample_connection env_busy_after_5 in
  @SENDFILE darwin_build = DARWIN_SENDFILE
  /\ r_ret (env_transfer env_busy_after_5) <> 0
  /\ r_errno (env_transfer env_busy_after_5) = @EBUSY darwin_build
  /\ r_out (env_transfer env_busy_after_5) = 5
  /\ res_ret res = @MHD_ERR_BADF_ darwin_build
  /\ ~ (res_ret res = r_out (env_transfer env_busy_after_5)).
Proof.
  cbv zeta; repeat split; try reflexivity; vm_compute; discriminate.
Qed.

(** ** The scatter-gather call *)

Lemma send2_failure {P : Platform} c header hn buffer n env :
  tls_conn_of c = false ->
  SCATTER_GATHER <> NO_SCATTER_GATHER ->
  r_ret (env_transfer env) < 0 ->
  (-1 =? r_ret (env_transfer env)) && (EAGAIN =? r_errno (env_transfer env))
  = false ->
  res_ret (MHD_send_on_connection2_ c header hn buffer n env)
  = r_ret (env_transfer env).
Proof.
  intros Htls Hsg Hret Hagain.
  unfold MHD_send_on_connection2_; rewrite Htls, andb_false_r.
  destruct SCATTER_GATHER; try congruence;
    cbv zeta; rewrite Hagain; reflexivity.
Qed.

(** C4 on the code.  [sendmsg()] interrupted by a signal: the call returns
    the raw [-1], which is no value of the outcome vocabulary, where
    [MHD_send_on_connection_] answers the same failure of [send()] with
    [MHD_ERR_AGAIN_]. *)
Lemma sendmsg_error_untranslated :
  let res :=
    @MHD_send_on_connection2_ linux_build sample_connection [] 10 [] 20
      env_interrupted in
  @SCATTER_GATHER linux_build = USE_SENDMSG
  /\ res_trace res
     = [sendmsg 7 [([], 10); ([], 20)] (@MSG_NOSIGNAL_OR_ZERO linux_build)]
  /\ res_ret res = -1
  /\ @in_outcome_vocabulary linux_build (res_ret res) = false
  /\ res_ret
       (@MHD_send_on_connection_ linux_build sample_connection [] 10
          MHD_SSO_HDR_CORK env_interrupted)
     = @MHD_ERR_AGAIN_ linux_build.
Proof.
  cbv zeta; repeat split; reflexivity.
Qed.

(** ** An offset past [off_t] *)

(** C5.  When the computed file offset exceeds the largest [off_t], the
    call issues no transfer call at all, sets [resp_sender] to
    [MHD_resp_sender_std] and returns [MHD_ERR_AGAIN_]. *)
Theorem sendfile_offset_overflow {P : Platform} c env :
  max_off_t < offsetu64 c ->
  let res := MHD_send_sendfile_ c env in
  res_ret res = MHD_ERR_AGAIN_
  /\ resp_sender (res_conn res) = MHD_resp_sender_std
  /\ filter is_transfer (res_trace res) = []
  /\ response_write_position (res_conn res) = response_write_position c.
Proof.
  intros Hoff res; subst res.
  unfold MHD_send_sendfile_; cbv zeta; autorewrite with conn.
  replace (max_off_t <? offsetu64 c) with true
    by (symmetry; now apply Z.ltb_lt).
  expose_result; autorewrite with conn; auto.
Qed.

Lemma sendfile_offset_overflow_witness :
  @max_off_t linux_build < offsetu64 far_connection
  /\ res_ret (@MHD_send_sendfile_ linux_build far_connection env_of_ok)
     = @MHD_ERR_AGAIN_ linux_build
  /\ resp_sender
       (res_conn (@MHD_send_sendfile_ linux_build far_connection env_of_ok))
     = MHD_resp_sender_std.
Proof.
  assert (H : @max_off_t linux_build < offsetu64 far_connection)
    by (vm_compute; reflexivity).
  split; [exact H|].
  split;
    apply (@sendfile_offset_overflow linux_build far_connection env_of_ok H).
Defined.

(** ** The transmission-strategy tag *)

Ltac open_call :=
  unfold MHD_send_sendfile_, sendfile_linux_solaris, sendfile_freebsd,
    sendfile_darwin, sendfile_finish, MHD_send_on_connection_;
  cbv zeta.

Lemma send_resp_sender {P : Platform} c buffer n opts env :
  resp_sender (res_conn (MHD_send_on_connection_ c buffer n opts env))
  = resp_sender c.
Proof.
  open_call; repeat case_if; expose_result; now autorewrite with conn.
Qed.

Lemma send2_resp_sender {P : Platform} c header hn buffer n env :
  resp_sender (res_conn (MHD_send_on_connection2_ c header hn buffer n env))
  = resp_sender c.
Proof.
  unfold MHD_send_on_connection2_.
  destruct (HTTPS_SUPPORT && tls_conn_of c); [apply send_resp_sender|].
  destruct SCATTER_GATHER; try apply send_resp_sender;
    cbv zeta; repeat case_if; expose_result; now autorewrite with conn.
Qed.

Lemma sendfile_resp_sender {P : Platform} c env :
  resp_sender (res_conn (MHD_send_sendfile_ c env)) = resp_sender c
  \/ resp_sender (res_conn (MHD_send_sendfile_ c env)) = MHD_resp_sender_std.
Proof.
  open_call; destruct SENDFILE; repeat case_if; expose_result;
    autorewrite with conn; auto.
Qed.

Lemma conn_step_resp_sender {P : Platform} c c' :
  conn_step c c' ->
  resp_sender c' = resp_sender c \/ resp_sender c' = MHD_resp_sender_std.
Proof.
  destruct 1;
    auto using send_resp_sender, send2_resp_sender, sendfile_resp_sender.
Qed.

(** C6.  No call of this layer writes anything but
    [MHD_resp_sender_std] into [resp_sender]: after one step the tag is
    what it was or is [MHD_resp_sender_std]; so along any sequence of
    calls, interleaved with whatever the caller does to the rest of the
    connection, a connection that is on the buffer-copy sender stays on
    it. *)
Theorem downgrade_permanent {P : Platform} :
  (forall c c',
      conn_step c c' ->
      resp_sender c' = resp_sender c
      \/ resp_sender c' = MHD_resp_sender_std)
  /\ (forall c c',
      clos_refl_trans_1n _ conn_step c c' ->
      resp_sender c = MHD_resp_sender_std ->
      resp_sender c' = MHD_resp_sender_std).
Proof.
  split; [apply @conn_step_resp_sender|].
  induction 1 as [c | c c1 c2 Hstep Hrest IH]; intros Hstd; [exact Hstd|].
  apply IH.
  destruct (conn_step_resp_sender _ _ Hstep) as [Hsame | Hnew]; congruence.
Qed.

Lemma downgrade_permanent_witness :
  let downgraded :=
    res_conn (@MHD_send_sendfile_ linux_build far_connection env_of_ok) in
  let sent :=
    res_conn
      (@MHD_send_on_connection_ linux_build downgraded [] 100
         MHD_SSO_PUSH_DATA env_of_ok) in
  let later :=
    res_conn (@MHD_send_sendfile_ linux_build (advance sent 100) env_of_ok) in
  resp_sender far_connection = MHD_resp_sender_sendfile
  /\ resp_sender downgraded = MHD_resp_sender_std
  /\ resp_sender later = MHD_resp_sender_std.
Proof.
  cbv zeta.
  assert (H : resp_sender
                (res_conn
                   (@MHD_send_sendfile_ linux_build far_connection env_of_ok))
              = MHD_resp_sender_std) by reflexivity.
  split; [reflexivity|]. split; [exact H|].
  refine (proj2 (@downgrade_permanent linux_build) _ _ _ H).
  eapply Relation_Operators.rt1n_trans;
    [apply (@step_send linux_build _ [] 100 MHD_SSO_PUSH_DATA env_of_ok)|].
  match goal with
  | |- clos_refl_trans_1n _ _ ?x _ =>
      apply Relation_Operators.rt1n_trans with (y := advance x 100);
        [apply step_caller; reflexivity|]
  end.
  eapply Relation_Operators.rt1n_trans;
    [apply (@step_sendfile linux_build _ env_of_ok)|].
  apply Relation_Operators.rt1n_refl.
Defined.

(** ** The header threshold *)

(** On a build with a cork primitive the pre-hook does nothing when asked
    to push, whatever the cache says: with the cork off there is nothing
    to do, with the cork on it returns at the line its own comment
    marks as a bug to be fixed. *)
Lemma cork_build_pre_push_noop {P : Platform} c plain_send r :
  MHD_TCP_CORK_NOPUSH = true ->
  pre_send_setopt c plain_send true r = (c, []).
Proof.
  intros Hcork; unfold pre_send_setopt; rewrite Hcork.
  repeat case_if; reflexivity.
Qed.

(** C7 on the code.  The threshold is as claimed: under
    [MHD_SSO_HDR_CORK] a 2000-byte header resolves to push, a 1024-byte
    one to buffer.  But on a build with a cork primitive, pushing does not
    take the cork off before the transfer.  A connection that an earlier
    buffered send left corked sends its 2000-byte header with the cork
    still on: the pre-hook makes no call, [send()] comes first and the
    uncork call follows it.  A build without cork does switch no-delay on
    before [send()]. *)
Lemma hdr_cork_push_leaves_cork_on :
  let earlier :=
    @MHD_send_on_connection_ freebsd_build sample_connection [] 10
      MHD_SSO_PREFER_BUFF (env_setopt_1 (accepted 10)) in
  let corked := res_conn earlier in
  let header :=
    @MHD_send_on_connection_ freebsd_build corked [] 2000 MHD_SSO_HDR_CORK
      (env_setopt_1 (accepted 2000)) in
  push_data_of MHD_SSO_HDR_CORK 2000 = true
  /\ push_data_of MHD_SSO_HDR_CORK 1024 = false
  /\ @MHD_TCP_CORK_NOPUSH freebsd_build = true
  /\ res_trace earlier = [MHD_socket_cork_ 7 true; MHD_send4_ 7 [] 10 0]
  /\ sk_corked corked = true
  /\ @pre_send_setopt freebsd_build corked true
       (push_data_of MHD_SSO_HDR_CORK 2000) (accepted 1) = (corked, [])
  /\ res_trace header = [MHD_send4_ 7 [] 2000 0; MHD_socket_cork_ 7 false]
  /\ res_trace
       (@MHD_send_on_connection_ plain_build sample_connection [] 2000
          MHD_SSO_HDR_CORK (env_of (accepted 2000)))
     = [MHD_socket_set_nodelay_ 7 true; MHD_send4_ 7 [] 2000 0].
Proof.
  cbv zeta; repeat split; reflexivity.
Qed.

(** ** The requested length *)

Lemma sendfile_transfer_calls {P : Platform} c env :
  filter is_transfer (res_trace (MHD_send_sendfile_ c env))
  = if max_off_t <? offsetu64 c then []
    else [sendfile (socket_fd c) (fd (response c)) (offsetu64 c)
            (send_size c) (sendfile_flags c)].
Proof.
  open_call; autorewrite with conn.
  destruct SENDFILE; repeat case_if; expose_result;
    autorewrite with conn; simpl; now autorewrite with conn.
Qed.

Lemma send_size_min {P : Platform} c :
  chunk_fits ->
  let chunk := if used_thr_p_c c then 0x200000 else 0x20000 in
  chunk_size c = chunk
  /\ send_size c = Z.min (Z.min (left c) chunk) max_off_t.
Proof.
  intros [Hsize Hoff] chunk.
  unfold MHD_SENFILE_CHUNK_THR_P_C_ in Hsize, Hoff.
  assert (Hchunk : 0 <= chunk <= 0x200000)
    by (subst chunk; destruct (used_thr_p_c c); lia).
  assert (Hc : chunk_size c = chunk).
  { unfold chunk_size, to_size_t, MHD_SENFILE_CHUNK_THR_P_C_,
      MHD_SENFILE_CHUNK_.
    fold chunk; apply Z.mod_small; lia. }
  split; [exact Hc|].
  assert (Hleft : 0 <= left c)
    by (unfold left, to_uint64; apply Z.mod_pos_bound; lia).
  unfold send_size; rewrite Hc.
  destruct (Z.ltb_spec chunk (left c)).
  - lia.
  - unfold to_size_t; rewrite Z.mod_small; lia.
Qed.

(** C8.  On a platform whose [size_t] and [off_t] hold the 2 MiB chunk:
    the chunk size is 0x200000 for a thread-per-connection daemon and
    0x20000 otherwise; every [sendfile()] the call issues asks for the
    least of the bytes left, the chunk size and the largest [off_t]; such
    a call is issued whenever the file offset is within [off_t]; and the
    bytes left are [total_size - response_write_position] as long as the
    write position has not passed the total size. *)
Theorem sendfile_request_length {P : Platform} c env :
  chunk_fits ->
  let res := MHD_send_sendfile_ c env in
  let chunk := if used_thr_p_c c then 0x200000 else 0x20000 in
  let request := Z.min (Z.min (left c) chunk) max_off_t in
  chunk_size c = chunk
  /\ (forall s file_fd off count flags,
      In (sendfile s file_fd off count flags) (res_trace res) ->
      count = request)
  /\ (offsetu64 c <= max_off_t ->
      In (sendfile (socket_fd c) (fd (response c)) (offsetu64 c) request
            (sendfile_flags c))
         (res_trace res))
  /\ (0 <= response_write_position c <= total_size (response c) ->
      total_size (response c) < 2 ^ 64 ->
      left c = total_size (response c) - response_write_position c).
Proof.
  intros Hfits res chunk request.
  destruct (send_size_min c Hfits) as [Hchunk Hsize].
  fold chunk in Hchunk, Hsize; fold request in Hsize.
  pose proof (sendfile_transfer_calls c env) as Hcalls.
  fold res in Hcalls; rewrite Hsize in Hcalls.
  split; [exact Hchunk|split; [|split]].
  - intros s file_fd off count flags Hin.
    assert (Hf : In (sendfile s file_fd off count flags)
                   (filter is_transfer (res_trace res)))
      by (apply filter_In; split; [exact Hin|reflexivity]).
    rewrite Hcalls in Hf.
    destruct (max_off_t <? offsetu64 c); [contradiction|].
    destruct Hf as [Heq | []]; now inversion Heq.
  - intros Hoff.
    replace (max_off_t <? offsetu64 c) with false in Hcalls
      by (symmetry; now apply Z.ltb_ge).
    assert (Hf : In (sendfile (socket_fd c) (fd (response c)) (offsetu64 c)
                       request (sendfile_flags c))
                   (filter is_transfer (res_trace res)))
      by (rewrite Hcalls; now left).
    now apply filter_In in Hf.
  - intros Hpos Htotal; unfold left, to_uint64.
    apply Z.mod_small; lia.
Qed.

Lemma sendfile_request_length_witness :
  @chunk_fits linux_build
  /\ @used_thr_p_c linux_build threaded_connection = true
  /\ left threaded_connection = 3000000
  /\ In (sendfile 7 9 1000000 0x200000 0)
       (res_trace
          (@MHD_send_sendfile_ linux_build threaded_connection env_of_ok)).
Proof.
  assert (H : @chunk_fits linux_build) by (split; vm_compute; congruence).
  split; [exact H|]. split; [reflexivity|]. split; [reflexivity|].
  apply (proj1 (proj2 (proj2
    (@sendfile_request_length linux_build threaded_connection env_of_ok H)))).
  vm_compute; discriminate.
Defined.

(** ** What the calls leave alone *)

Ltac frame_cases :=
  repeat case_if; unfold mk_result; cbn [res_conn]; auto 8 with frame.

Lemma send_frame {P : Platform} c buffer n opts env :
  frame_eq c (res_conn (MHD_send_on_connection_ c buffer n opts env)).
Proof. open_call; frame_cases. Qed.

Lemma send2_frame {P : Platform} c header hn buffer n env :
  frame_eq c (res_conn (MHD_send_on_connection2_ c header hn buffer n env)).
Proof.
  unfold MHD_send_on_connection2_.
  destruct (HTTPS_SUPPORT && tls_conn_of c); [apply send_frame|].
  destruct SCATTER_GATHER; try apply send_frame; cbv zeta; frame_cases.
Qed.

Lemma sendfile_frame {P : Platform} c env :
  frame_eq c (res_conn (MHD_send_sendfile_ c env)).
Proof. open_call; destruct SENDFILE; frame_cases. Qed.

Lemma send_epoll_state {P : Platform} c buffer n opts env :
  write_ready_cleared c
    (res_conn (MHD_send_on_connection_ c buffer n opts env)).
Proof.
  unfold write_ready_cleared.
  open_call; repeat case_if; expose_result; autorewrite with conn; auto.
Qed.

Lemma send2_epoll_state {P : Platform} c header hn buffer n env :
  write_ready_cleared c
    (res_conn (MHD_send_on_connection2_ c header hn buffer n env)).
Proof.
  unfold MHD_send_on_connection2_.
  destruct (HTTPS_SUPPORT && tls_conn_of c); [apply send_epoll_state|].
  unfold write_ready_cleared.
  destruct SCATTER_GATHER; try apply send_epoll_state;
    cbv zeta; repeat case_if; expose_result; autorewrite with conn; auto.
Qed.

Lemma sendfile_epoll_state {P : Platform} c env :
  write_ready_cleared c (res_conn (MHD_send_sendfile_ c env)).
Proof.
  unfold write_ready_cleared.
  open_call; destruct SENDFILE; repeat case_if; expose_result;
    autorewrite with conn; auto.
Qed.

(** C10.  The three transmission calls leave [response_write_position],
    the response with its [total_size], the daemon, the socket, the
    connection state and the TLS session exactly as they found them; of
    the epoll state they change at most the write-ready bit, which they
    clear.  What remains for them to write is the mode cache, that bit
    and [resp_sender]. *)
Theorem transmission_frame {P : Platform}
    c header hn buffer n opts env :
  let after_send :=
    res_conn (MHD_send_on_connection_ c buffer n opts env) in
  let after_send2 :=
    res_conn (MHD_send_on_connection2_ c header hn buffer n env) in
  let after_sendfile := res_conn (MHD_send_sendfile_ c env) in
  (frame_eq c after_send /\ write_ready_cleared c after_send)
  /\ (frame_eq c after_send2 /\ write_ready_cleared c after_send2)
  /\ (frame_eq c after_sendfile /\ write_ready_cleared c after_sendfile)
  /\ response_write_position after_send = response_write_position c
  /\ response_write_position after_send2 = response_write_position c
  /\ response_write_position after_sendfile = response_write_position c
  /\ total_size (response after_send) = total_size (response c)
  /\ total_size (response after_send2) = total_size (response c)
  /\ total_size (response after_sendfile) = total_size (response c).
Proof.
  intros after_send after_send2 after_sendfile.
  pose proof (send_frame c buffer n opts env) as H1.
  pose proof (send2_frame c header hn buffer n env) as H2.
  pose proof (sendfile_frame c env) as H3.
  fold after_send in H1; fold after_send2 in H2; fold after_sendfile in H3.
  split; [split; [exact H1 | apply send_epoll_state]|].
  split; [split; [exact H2 | apply send2_epoll_state]|].
  split; [split; [exact H3 | apply sendfile_epoll_state]|].
  destruct H1, H2, H3.
  repeat (split; [first [assumption | congruence]|]).
  congruence.
Qed.

(** * Further properties of the code *)

(** ** The hooks by themselves *)

Lemma cached_mode_set_cached_mode {P : Platform} c b :
  cached_mode (set_cached_mode c b) = b.
Proof.
  unfold cached_mode, set_cached_mode; destruct MHD_TCP_CORK_NOPUSH;
    reflexivity.
Qed.

Lemma run_hook_outcome {P : Platform} c h :
  hook_outcome c (hc_push_data h) (hc_reply h) (run_hook c h).
Proof.
  unfold run_hook; destruct (hc_kind h);
    [apply pre_send_setopt_outcome | apply post_send_setopt_outcome].
Qed.

Lemma pre_send_setopt_keeps_cork {P : Platform} c plain_send push_data r :
  sk_corked c = true ->
  sk_corked (fst (pre_send_setopt c plain_send push_data r)) = true.
Proof.
  intros Hc; unfold pre_send_setopt.
  repeat case_if; cbn [fst set_sk_corked set_sk_nodelay sk_corked]; auto.
Qed.

Lemma post_send_setopt_uncorks {P : Platform} c plain_send push_data r :
  sk_corked c = true ->
  sk_corked (fst (post_send_setopt c plain_send push_data r)) = false ->
  MHD_TCP_CORK_NOPUSH = true /\ push_data = true /\ r_ret r <> 0
  /\ snd (post_send_setopt c plain_send push_data r)
     = [MHD_socket_cork_ (socket_fd c) false].
Proof.
  intros Hc; unfold post_send_setopt.
  destruct (MHD_USE_MSG_MORE && plain_send); cbn [fst]; [congruence|].
  destruct MHD_TCP_CORK_NOPUSH; cbn [fst]; [|congruence].
  rewrite Hc; destruct push_data; cbn [negb Bool.eqb fst]; [|congruence].
  destruct (Z.eqb_spec 0 (r_ret r)) as [Hz | Hz];
    cbn [negb fst snd set_sk_corked sk_corked]; [congruence|].
  intros _; repeat split; congruence.
Qed.

(** X1 (cork discipline).  The pre-hook only ever corks and the post-hook
    only ever uncorks: a corked connection is still corked after the
    pre-hook, an uncorked one still uncorked after the post-hook, and the
    cork calls they issue carry [true] and [false] respectively.  The
    post-hook never touches [sk_nodelay]; the pre-hook touches it only on
    builds without a cork primitive, where neither hook touches
    [sk_corked]. *)
Theorem hooks_cork_discipline {P : Platform} c plain_send push_data r :
  let pre := pre_send_setopt c plain_send push_data r in
  let post := post_send_setopt c plain_send push_data r in
  (sk_corked c = true -> sk_corked (fst pre) = true)
  /\ (sk_corked c = false -> sk_corked (fst post) = false)
  /\ (forall s on, In (MHD_socket_cork_ s on) (snd pre) -> on = true)
  /\ (forall s on, In (MHD_socket_cork_ s on) (snd post) -> on = false)
  /\ sk_nodelay (fst post) = sk_nodelay c
  /\ (MHD_TCP_CORK_NOPUSH = true -> sk_nodelay (fst pre) = sk_nodelay c)
  /\ (MHD_TCP_CORK_NOPUSH = false ->
      sk_corked (fst pre) = sk_corked c /\ sk_corked (fst post) = sk_corked c
      /\ snd post = []).
Proof.
  intros pre post; subst pre post.
  unfold pre_send_setopt, post_send_setopt.
  destruct (MHD_USE_MSG_MORE && plain_send), MHD_TCP_CORK_NOPUSH,
    (sk_corked c) eqn:Hc, (sk_nodelay c) eqn:Hn, push_data,
    (0 =? r_ret r);
    cbn [fst snd negb Bool.eqb set_sk_corked set_sk_nodelay sk_corked
         sk_nodelay];
    rewrite ?Hc, ?Hn;
    repeat split; intros; try congruence;
    match goal with
    | H : In _ [] |- _ => destruct H
    | H : In _ [_] |- _ => destruct H as [H | []]; now inversion H
    end.
Qed.

(** X2 (no repeat, but retry).  Two pre-hooks in a row asking for the same
    mode: when the first issued no call or its call succeeded, the second
    issues none; when the first call failed, the second issues the same
    call again.  The same holds for two post-hooks. *)
Theorem hook_repeat {P : Platform} c plain_send push_data r r' :
  let pre1 := pre_send_setopt c plain_send push_data r in
  let pre2 := pre_send_setopt (fst pre1) plain_send push_data r' in
  let post1 := post_send_setopt c plain_send push_data r in
  let post2 := post_send_setopt (fst post1) plain_send push_data r' in
  (snd pre1 = [] \/ mode_set_succeeded r = true -> snd pre2 = [])
  /\ (snd pre1 <> [] -> mode_set_succeeded r = false -> snd pre2 = snd pre1)
  /\ (snd post1 = [] \/ mode_set_succeeded r = true -> snd post2 = [])
  /\ (snd post1 <> [] -> mode_set_succeeded r = false ->
      snd post2 = snd post1).
Proof.
  cbv zeta.
  unfold mode_set_succeeded, cork_succeeded, nodelay_succeeded,
    pre_send_setopt, post_send_setopt.
  rewrite (Z.eqb_sym (r_ret r) 0).
  destruct (MHD_USE_MSG_MORE && plain_send); cbn [fst snd];
    [repeat split; intros; congruence|].
  destruct MHD_TCP_CORK_NOPUSH.
  - destruct (sk_corked c) eqn:Hc, push_data, (0 =? r_ret r);
      cbn [fst snd negb Bool.eqb set_sk_corked sk_corked socket_fd];
      rewrite ?Hc; cbn [fst snd Bool.eqb];
      repeat split; intros; try reflexivity; try congruence;
      match goal with
      | H : _ \/ _ |- _ => destruct H; discriminate
      end.
  - destruct (sk_nodelay c) eqn:Hn, push_data, (0 =? r_ret r);
      cbn [fst snd negb Bool.eqb set_sk_nodelay sk_nodelay socket_fd];
      rewrite ?Hn; cbn [fst snd Bool.eqb];
      repeat split; intros; try reflexivity; try congruence;
      match goal with
      | H : _ \/ _ |- _ => destruct H; discriminate
      end.
Qed.

Lemma run_hooks_transitions_le {P : Platform} hs :
  forall c,
    (mode_transitions c hs <= length (snd (run_hooks c hs)))%nat.
Proof.
  induction hs as [|h hs IH]; intros c; simpl; [lia|].
  rewrite length_app.
  specialize (IH (fst (run_hook c h))).
  destruct (run_hook_outcome c h) as [ | Hne Hfail | Hne Hok]; cbn [fst snd] in *.
  - rewrite eqb_reflx; simpl; lia.
  - rewrite eqb_reflx; simpl; lia.
  - simpl; destruct (Bool.eqb _ _); lia.
Qed.

(** X3 (cache convergence).  Along any sequence of hook calls on one
    connection, the mode-setting primitive is called at least once per
    change of the cached mode, and, when every call that is issued
    succeeds, exactly once per change: never for a mode that is already
    cached. *)
Theorem hooks_converge {P : Platform} c hs :
  (mode_transitions c hs <= length (snd (run_hooks c hs)))%nat
  /\ (Forall (fun h => mode_set_succeeded (hc_reply h) = true) hs ->
      length (snd (run_hooks c hs)) = mode_transitions c hs)
  /\ forallb is_mode_set (snd (run_hooks c hs)) = true.
Proof.
  split; [apply run_hooks_transitions_le|]. split.
  - intros Hall; revert c.
    induction Hall as [|h hs Hh Hall IH]; intros c; simpl; [reflexivity|].
    rewrite length_app, (IH (fst (run_hook c h))).
    destruct (run_hook_outcome c h) as [ | Hne Hfail | Hne Hok];
      cbn [fst snd length].
    + now rewrite eqb_reflx.
    + congruence.
    + rewrite cached_mode_set_cached_mode.
      replace (Bool.eqb (desired_mode (hc_push_data h)) (cached_mode c))
        with false; [reflexivity|].
      symmetry; apply eqb_false_iff; congruence.
  - revert c; induction hs as [|h hs IH]; intros c; simpl; [reflexivity|].
    rewrite forallb_app, IH, andb_true_r.
    eapply hook_outcome_mode_set, run_hook_outcome.
Qed.

Lemma hooks_converge_witness :
  Forall (fun h => @mode_set_succeeded freebsd_build (hc_reply h) = true)
    alternating_hooks
  /\ snd (@run_hooks freebsd_build sample_connection alternating_hooks)
     = [MHD_socket_cork_ 7 true; MHD_socket_cork_ 7 false;
        MHD_socket_cork_ 7 true; MHD_socket_cork_ 7 false]
  /\ length (snd (@run_hooks freebsd_build sample_connection
                    alternating_hooks))
     = @mode_transitions freebsd_build sample_connection alternating_hooks.
Proof.
  assert (H : Forall
                (fun h => @mode_set_succeeded freebsd_build (hc_reply h)
                          = true)
                alternating_hooks)
    by (repeat constructor).
  split; [exact H|]. split; [reflexivity|].
  apply (proj1 (proj2 (@hooks_converge freebsd_build sample_connection
                         alternating_hooks)) H).
Defined.

(** X4 (what the hooks achieve).  Unless [MSG_MORE] makes it a no-op, a
    hook whose mode-setting call succeeds, or is not needed, leaves the
    cache at the mode asked for in these cases: the pre-hook when asked to
    buffer, on any build, and when asked to push on a build without cork;
    the post-hook when asked to push on a build with cork.  Asked to push,
    the pre-hook of a cork build leaves the cork as it is, and so does the
    post-hook asked to buffer. *)
Theorem hooks_establish_mode {P : Platform} c plain_send push_data r :
  MHD_USE_MSG_MORE && plain_send = false ->
  mode_set_succeeded r = true ->
  let pre := fst (pre_send_setopt c plain_send push_data r) in
  let post := fst (post_send_setopt c plain_send push_data r) in
  (push_data = false \/ MHD_TCP_CORK_NOPUSH = false ->
   cached_mode pre = desired_mode push_data)
  /\ (MHD_TCP_CORK_NOPUSH = true -> push_data = true ->
      cached_mode post = desired_mode push_data /\ pre = c)
  /\ (MHD_TCP_CORK_NOPUSH = true -> push_data = false -> post = c).
Proof.
  intros Hmore Hok; cbv zeta.
  unfold mode_set_succeeded, cork_succeeded, nodelay_succeeded in Hok.
  rewrite (Z.eqb_sym (r_ret r) 0) in Hok.
  unfold pre_send_setopt, post_send_setopt, cached_mode, desired_mode.
  rewrite Hmore.
  destruct MHD_TCP_CORK_NOPUSH, (sk_corked c) eqn:Hc,
    (sk_nodelay c) eqn:Hn, push_data;
    rewrite ?Hok;
    cbn [fst negb Bool.eqb set_sk_corked set_sk_nodelay sk_corked
         sk_nodelay];
    rewrite ?Hc, ?Hn;
    (split; [|split]); intros; try reflexivity; try congruence;
    try (split; reflexivity);
    match goal with
    | H : _ \/ _ |- _ => destruct H; discriminate
    end.
Qed.

Lemma hooks_establish_mode_witness :
  @MHD_USE_MSG_MORE freebsd_build && false = false
  /\ @mode_set_succeeded freebsd_build (accepted 1) = true
  /\ @cached_mode freebsd_build
       (fst (@pre_send_setopt freebsd_build sample_connection false false
               (accepted 1)))
     = @desired_mode freebsd_build false
  /\ sk_corked
       (fst (@pre_send_setopt freebsd_build sample_connection false false
               (accepted 1))) = true.
Proof.
  split; [reflexivity|]. split; [reflexivity|]. split; [|reflexivity].
  apply (proj1 (@hooks_establish_mode freebsd_build sample_connection false
                  false (accepted 1) eq_refl eq_refl)).
  left; reflexivity.
Defined.

(** ** [MHD_send_on_connection_] *)

Lemma clamp_min (m n : Z) : (if m <? n then m else n) = Z.min n m.
Proof. destruct (Z.ltb_spec m n); lia. Qed.

(** X5 (not connected).  On an invalid socket or a closed connection
    [MHD_send_on_connection_] returns [MHD_ERR_NOTCONN_] at once: no system
    call is made and the connection is returned untouched.  So does
    [MHD_send_on_connection2_] wherever it hands the header over to it
    (TLS connection, or no scatter-gather primitive). *)
Theorem send_not_connected {P : Platform} c buffer n opts env :
  socket_fd c = MHD_INVALID_SOCKET \/ state c = MHD_CONNECTION_CLOSED ->
  MHD_send_on_connection_ c buffer n opts env
  = mk_result MHD_ERR_NOTCONN_ c []
  /\ (tls_conn_of c = true \/ SCATTER_GATHER = NO_SCATTER_GATHER ->
      forall header hn,
        MHD_send_on_connection2_ c header hn buffer n env
        = mk_result MHD_ERR_NOTCONN_ c []).
Proof.
  intros Hbad.
  assert (Hsend : forall b m o,
             MHD_send_on_connection_ c b m o env
             = mk_result MHD_ERR_NOTCONN_ c []).
  { intros b m o; unfold MHD_send_on_connection_.
    replace ((MHD_INVALID_SOCKET =? socket_fd c)
             || (MHD_CONNECTION_CLOSED =? state c)) with true; [reflexivity|].
    symmetry; apply orb_true_iff.
    destruct Hbad as [H | H]; [left | right]; apply Z.eqb_eq; congruence. }
  split; [apply Hsend|].
  intros Hdelegate header hn; unfold MHD_send_on_connection2_.
  destruct Hdelegate as [Htls | Hsg].
  - assert (Hhttps : HTTPS_SUPPORT = true)
      by (unfold tls_conn_of in Htls; destruct HTTPS_SUPPORT; congruence).
    rewrite Htls, Hhttps; apply Hsend.
  - rewrite Hsg; destruct (HTTPS_SUPPORT && tls_conn_of c); apply Hsend.
Qed.

Lemma send_not_connected_witness :
  socket_fd unconnected = @MHD_INVALID_SOCKET linux_build
  /\ @MHD_send_on_connection_ linux_build unconnected [] 10
       MHD_SSO_PUSH_DATA env_of_ok
     = mk_result (@MHD_ERR_NOTCONN_ linux_build) unconnected [].
Proof.
  split; [reflexivity|].
  apply (@send_not_connected linux_build unconnected [] 10 MHD_SSO_PUSH_DATA
           env_of_ok (or_introl eq_refl)).
Defined.

(** X6 (return values).  Whatever the transfer call answers,
    [MHD_send_on_connection_] returns either that call's own non-negative
    byte count or one of [MHD_ERR_AGAIN_], [MHD_ERR_CONNRESET_],
    [MHD_ERR_NOTCONN_]: no negative value of [send()] or of GnuTLS gets
    through. *)
Theorem send_result_in_vocabulary {P : Platform} c buffer n opts env :
  let ret := res_ret (MHD_send_on_connection_ c buffer n opts env) in
  ((0 <= ret /\ ret = r_ret (env_transfer env))
   \/ ret = MHD_ERR_AGAIN_ \/ ret = MHD_ERR_CONNRESET_
   \/ ret = MHD_ERR_NOTCONN_)
  /\ in_outcome_vocabulary ret = true.
Proof.
  cbv zeta.
  assert (H : (0 <= res_ret (MHD_send_on_connection_ c buffer n opts env)
               /\ res_ret (MHD_send_on_connection_ c buffer n opts env)
                  = r_ret (env_transfer env))
              \/ res_ret (MHD_send_on_connection_ c buffer n opts env)
                 = MHD_ERR_AGAIN_
              \/ res_ret (MHD_send_on_connection_ c buffer n opts env)
                 = MHD_ERR_CONNRESET_
              \/ res_ret (MHD_send_on_connection_ c buffer n opts env)
                 = MHD_ERR_NOTCONN_).
  { open_call; repeat case_if; expose_result; auto;
      left; split; auto;
      match goal with
      | H : (_ <? 0) = false |- _ => apply Z.ltb_ge in H; exact H
      end. }
  split; [exact H|].
  unfold in_outcome_vocabulary.
  destruct H as [[H _] | [H | [H | H]]].
  - apply Z.leb_le in H; now rewrite H.
  - rewrite H, Z.eqb_refl; now rewrite !orb_true_r.
  - rewrite H, Z.eqb_refl; now rewrite !orb_true_r.
  - rewrite H, Z.eqb_refl; now rewrite !orb_true_r.
Qed.

(** X7 (the transfer call).  On a connected socket
    [MHD_send_on_connection_] makes exactly one transfer call, whatever
    comes of it: [gnutls_record_send] on the session of a TLS connection,
    [send()] on the socket otherwise.  The length it passes is
    [buffer_size] cut to the path's maximum, [SSIZE_MAX] or
    [MHD_SCKT_SEND_MAX_SIZE_], so never more than the caller offered; and
    [send()] carries [MSG_MORE] exactly when the build has it and the data
    is to be buffered. *)
Theorem send_transfer_call {P : Platform} c buffer n opts env :
  socket_fd c <> MHD_INVALID_SOCKET ->
  state c <> MHD_CONNECTION_CLOSED ->
  filter is_transfer
    (res_trace (MHD_send_on_connection_ c buffer n opts env))
  = [if tls_conn_of c
     then gnutls_record_send (tls_session c) buffer (send_length c n)
     else MHD_send4_ (socket_fd c) buffer (send_length c n)
            (if MHD_USE_MSG_MORE && negb (push_data_of opts n)
             then MSG_MORE else 0)]
  /\ send_length c n <= n.
Proof.
  intros Hsock Hstate.
  split; [|unfold send_length; lia].
  unfold MHD_send_on_connection_, send_length; cbv zeta.
  replace (MHD_INVALID_SOCKET =? socket_fd c) with false
    by (symmetry; apply Z.eqb_neq; congruence).
  replace (MHD_CONNECTION_CLOSED =? state c) with false
    by (symmetry; apply Z.eqb_neq; congruence).
  cbn [orb]; rewrite !clamp_min.
  destruct (tls_conn_of c), MHD_USE_MSG_MORE, (push_data_of opts n);
    cbn [andb negb];
    repeat case_if; expose_result; autorewrite with conn;
    reflexivity.
Qed.

Lemma send_transfer_call_witness :
  socket_fd tls_connection <> @MHD_INVALID_SOCKET linux_build
  /\ state tls_connection <> @MHD_CONNECTION_CLOSED linux_build
  /\ filter is_transfer
       (res_trace
          (@MHD_send_on_connection_ linux_build tls_connection [] (2 ^ 63 + 5)
             MHD_SSO_PUSH_DATA env_of_ok))
     = [gnutls_record_send 41 [] (2 ^ 63 - 1)].
Proof.
  assert (H1 : socket_fd tls_connection <> @MHD_INVALID_SOCKET linux_build)
    by (vm_compute; discriminate).
  assert (H2 : state tls_connection <> @MHD_CONNECTION_CLOSED linux_build)
    by (vm_compute; discriminate).
  split; [exact H1|]. split; [exact H2|].
  apply (proj1 (@send_transfer_call linux_build tls_connection []
                  (2 ^ 63 + 5) MHD_SSO_PUSH_DATA env_of_ok H1 H2)).
Defined.

Ltac connected Hsock Hstate :=
  replace (MHD_INVALID_SOCKET =? socket_fd _) with false
    by (symmetry; apply Z.eqb_neq; congruence);
  replace (MHD_CONNECTION_CLOSED =? state _) with false
    by (symmetry; apply Z.eqb_neq; congruence);
  cbn [orb].

(** X8 (TLS failures).  On a TLS connection the return value of
    [gnutls_record_send] alone decides, [errno] is not looked at:
    [GNUTLS_E_AGAIN] and [GNUTLS_E_INTERRUPTED] give [MHD_ERR_AGAIN_], any
    other negative value gives [MHD_ERR_NOTCONN_].  Only [GNUTLS_E_AGAIN]
    on a build with epoll clears the write-ready bit; a successful TLS
    send returns the byte count and leaves the epoll state alone even when
    it took fewer bytes than offered.  After a failure no further call is
    made. *)
Theorem tls_send_classification {P : Platform} c buffer n opts env :
  tls_conn_of c = true ->
  socket_fd c <> MHD_INVALID_SOCKET ->
  state c <> MHD_CONNECTION_CLOSED ->
  let ret := r_ret (env_transfer env) in
  let res := MHD_send_on_connection_ c buffer n opts env in
  (ret = GNUTLS_E_AGAIN ->
   res_ret res = MHD_ERR_AGAIN_
   /\ epoll_state (res_conn res)
      = (if EPOLL_SUPPORT
         then Z.land (epoll_state c) (Z.lnot MHD_EPOLL_STATE_WRITE_READY)
         else epoll_state c))
  /\ (ret = GNUTLS_E_INTERRUPTED -> ret <> GNUTLS_E_AGAIN ->
      res_ret res = MHD_ERR_AGAIN_
      /\ epoll_state (res_conn res) = epoll_state c)
  /\ (ret < 0 -> ret <> GNUTLS_E_AGAIN -> ret <> GNUTLS_E_INTERRUPTED ->
      res_ret res = MHD_ERR_NOTCONN_
      /\ epoll_state (res_conn res) = epoll_state c)
  /\ (0 <= ret -> ret <> GNUTLS_E_AGAIN -> ret <> GNUTLS_E_INTERRUPTED ->
      res_ret res = ret /\ epoll_state (res_conn res) = epoll_state c)
  /\ (res_ret res <> ret ->
      res_trace res
      = snd (pre_send_setopt c false (push_data_of opts n)
               (env_pre_setopt env))
        ++ [gnutls_record_send (tls_session c) buffer (send_length c n)]).
Proof.
  intros Htls Hsock Hstate ret res; subst ret res.
  unfold MHD_send_on_connection_, send_length; cbv zeta.
  connected Hsock Hstate.
  rewrite Htls, !clamp_min; cbn [negb].
  destruct (Z.eqb_spec GNUTLS_E_AGAIN (r_ret (env_transfer env))) as [Ha|Ha];
    destruct (Z.eqb_spec GNUTLS_E_INTERRUPTED (r_ret (env_transfer env)))
      as [Hi|Hi];
    destruct (Z.ltb_spec (r_ret (env_transfer env)) 0) as [Hn|Hn];
    destruct EPOLL_SUPPORT;
    cbn [orb andb];
    expose_result; autorewrite with conn;
    (split; [|split; [|split; [|split]]]); intros;
    try congruence; try lia; try reflexivity; try (split; congruence).
Qed.

Lemma tls_send_classification_witness :
  @tls_conn_of linux_build tls_connection = true
  /\ socket_fd tls_connection <> @MHD_INVALID_SOCKET linux_build
  /\ state tls_connection <> @MHD_CONNECTION_CLOSED linux_build
  /\ res_ret
       (@MHD_send_on_connection_ linux_build tls_connection [] 10
          MHD_SSO_PUSH_DATA (env_of (accepted (-52))))
     = @MHD_ERR_AGAIN_ linux_build
  /\ epoll_state
       (res_conn
          (@MHD_send_on_connection_ linux_build tls_connection [] 10
             MHD_SSO_PUSH_DATA (env_of (accepted (-52)))))
     = epoll_state tls_connection.
Proof.
  assert (H1 : @tls_conn_of linux_build tls_connection = true)
    by reflexivity.
  assert (H2 : socket_fd tls_connection <> @MHD_INVALID_SOCKET linux_build)
    by (vm_compute; discriminate).
  assert (H3 : state tls_connection <> @MHD_CONNECTION_CLOSED linux_build)
    by (vm_compute; discriminate).
  repeat (split; [first [assumption | reflexivity]|]).
  apply (proj1 (proj2
    (@tls_send_classification linux_build tls_connection [] 10
       MHD_SSO_PUSH_DATA (env_of (accepted (-52))) H1 H2 H3)));
    [reflexivity | vm_compute; discriminate].
Defined.

(** X9 (short writes).  A plaintext [send()] that succeeds returns its byte
    count; on a build with epoll the write-ready bit is cleared exactly
    when the count is below the length that was passed, and the
    transmission strategy is never touched. *)
Theorem send_plain_success {P : Platform} c buffer n opts env :
  tls_conn_of c = false ->
  socket_fd c <> MHD_INVALID_SOCKET ->
  state c <> MHD_CONNECTION_CLOSED ->
  0 <= r_ret (env_transfer env) ->
  let ret := r_ret (env_transfer env) in
  let res := MHD_send_on_connection_ c buffer n opts env in
  res_ret res = ret
  /\ epoll_state (res_conn res)
     = (if EPOLL_SUPPORT && (to_size_t ret <? send_length c n)
        then Z.land (epoll_state c) (Z.lnot MHD_EPOLL_STATE_WRITE_READY)
        else epoll_state c)
  /\ resp_sender (res_conn res) = resp_sender c.
Proof.
  intros Htls Hsock Hstate Hret ret res; subst ret res.
  unfold MHD_send_on_connection_, send_length; cbv zeta.
  connected Hsock Hstate.
  rewrite Htls, !clamp_min.
  replace (r_ret (env_transfer env) <? 0) with false
    by (symmetry; now apply Z.ltb_ge).
  expose_result; autorewrite with conn.
  destruct (EPOLL_SUPPORT
            && (to_size_t (r_ret (env_transfer env))
                <? Z.min n MHD_SCKT_SEND_MAX_SIZE_));
    expose_result; autorewrite with conn; auto.
Qed.

Lemma send_plain_success_witness :
  @tls_conn_of linux_build sample_connection = false
  /\ socket_fd sample_connection <> @MHD_INVALID_SOCKET linux_build
  /\ state sample_connection <> @MHD_CONNECTION_CLOSED linux_build
  /\ 0 <= r_ret (env_transfer (env_of (accepted 4)))
  /\ res_ret
       (@MHD_send_on_connection_ linux_build sample_connection [] 10
          MHD_SSO_PUSH_DATA (env_of (accepted 4))) = 4.
Proof.
  assert (H1 : @tls_conn_of linux_build sample_connection = false)
    by reflexivity.
  assert (H2 : socket_fd sample_connection <> @MHD_INVALID_SOCKET linux_build)
    by (vm_compute; discriminate).
  assert (H3 : state sample_connection <> @MHD_CONNECTION_CLOSED linux_build)
    by (vm_compute; discriminate).
  assert (H4 : 0 <= r_ret (env_transfer (env_of (accepted 4))))
    by (vm_compute; discriminate).
  repeat (split; [assumption|]).
  apply (@send_plain_success linux_build sample_connection [] 10
           MHD_SSO_PUSH_DATA (env_of (accepted 4)) H1 H2 H3 H4).
Defined.

(** ** When a cork comes off *)

Ltac uncork_case Hpre :=
  let Hu := fresh "Hu" in
  intros Hu;
  first
    [ (* the connection is the one the pre-hook left *)
      exfalso; cbn [sk_corked] in Hu; congruence
    | apply post_send_setopt_uncorks in Hu; [|cbn [sk_corked]; exact Hpre];
      cbn [socket_fd] in Hu; autorewrite with conn in Hu;
      destruct Hu as (Hcork & Hpush & Hreply & Htrace) ].

(** X10 (uncorking).  [MHD_send_on_connection_] takes the cork off a corked
    connection only after a transfer that pushed and was complete: the
    option resolved to push, the transfer call returned a byte count equal
    to the length passed, and the uncork call, the last call made,
    answered non-zero.  A failed or short transfer, or one that buffers,
    leaves the connection corked. *)
Theorem send_uncorks_only_when_complete {P : Platform} c buffer n opts env :
  sk_corked c = true ->
  let res := MHD_send_on_connection_ c buffer n opts env in
  sk_corked (res_conn res) = false ->
  push_data_of opts n = true
  /\ res_ret res = r_ret (env_transfer env)
  /\ 0 <= res_ret res
  /\ to_size_t (res_ret res) = send_length c n
  /\ r_ret (env_post_setopt env) <> 0
  /\ exists calls,
      res_trace res = calls ++ [MHD_socket_cork_ (socket_fd c) false].
Proof.
  intros Hc res; subst res.
  pose proof (pre_send_setopt_keeps_cork c (negb (tls_conn_of c))
                (push_data_of opts n) (env_pre_setopt env) Hc) as Hpre.
  unfold MHD_send_on_connection_, send_length; cbv zeta.
  rewrite !clamp_min.
  destruct ((MHD_INVALID_SOCKET =? socket_fd c)
            || (MHD_CONNECTION_CLOSED =? state c));
    [expose_result; congruence|].
  destruct (tls_conn_of c) eqn:Htls; cbn [negb] in *.
  - destruct ((GNUTLS_E_AGAIN =? r_ret (env_transfer env))
              || (GNUTLS_E_INTERRUPTED =? r_ret (env_transfer env)));
      [case_if; expose_result; congruence|].
    destruct (Z.ltb_spec (r_ret (env_transfer env)) 0) as [Hn|Hn];
      [expose_result; congruence|].
    expose_result; autorewrite with conn; uncork_case Hpre.
    apply andb_prop in Hpush as [Hpush Hfull]; apply Z.eqb_eq in Hfull.
    repeat split; auto.
    eexists; rewrite Htrace; reflexivity.
  - destruct (Z.ltb_spec (r_ret (env_transfer env)) 0) as [Hn|Hn];
      [repeat case_if; expose_result; congruence|].
    case_if; expose_result; autorewrite with conn; uncork_case Hpre;
      apply andb_prop in Hpush as [Hpush Hfull]; apply Z.eqb_eq in Hfull;
      (repeat split; auto);
      eexists; rewrite Htrace; reflexivity.
Qed.

Lemma send_uncorks_only_when_complete_witness :
  sk_corked corked_connection = true
  /\ sk_corked
       (res_conn
          (@MHD_send_on_connection_ linux_build corked_connection [] 10
             MHD_SSO_PUSH_DATA (env_setopt_1 (accepted 10)))) = false
  /\ res_trace
       (@MHD_send_on_connection_ linux_build corked_connection [] 10
          MHD_SSO_PUSH_DATA (env_setopt_1 (accepted 10)))
     = [MHD_send4_ 7 [] 10 0; MHD_socket_cork_ 7 false]
  /\ @to_size_t linux_build
       (res_ret
          (@MHD_send_on_connection_ linux_build corked_connection [] 10
             MHD_SSO_PUSH_DATA (env_setopt_1 (accepted 10))))
     = @send_length linux_build corked_connection 10.
Proof.
  split; [reflexivity|]. split; [reflexivity|]. split; [reflexivity|].
  apply (@send_uncorks_only_when_complete linux_build corked_connection []
           10 MHD_SSO_PUSH_DATA (env_setopt_1 (accepted 10)) eq_refl eq_refl).
Defined.

(** ** [MHD_send_sendfile_] *)

(** X11 (a downgrade is a retry).  Whenever [MHD_send_sendfile_] changes the
    transmission strategy it returns [MHD_ERR_AGAIN_], never a byte count
    or a fatal code, so the caller comes back and takes the buffer-copy
    path; the new strategy is [MHD_resp_sender_std], the epoll state is
    left alone and no call follows the transfer call. *)
Theorem sendfile_downgrade_is_retry {P : Platform} c env :
  let res := MHD_send_sendfile_ c env in
  resp_sender (res_conn res) <> resp_sender c ->
  res_ret res = MHD_ERR_AGAIN_
  /\ resp_sender (res_conn res) = MHD_resp_sender_std
  /\ epoll_state (res_conn res) = epoll_state c
  /\ res_trace res
     = snd (pre_send_setopt c false true (env_pre_setopt env))
       ++ filter is_transfer (res_trace res).
Proof.
  cbv zeta.
  rewrite sendfile_transfer_calls.
  open_call; autorewrite with conn.
  destruct SENDFILE; repeat case_if; expose_result; autorewrite with conn;
    expose_result; intros Hne; try congruence;
    rewrite ?app_nil_r; repeat split; reflexivity.
Qed.

Lemma sendfile_downgrade_is_retry_witness :
  resp_sender
    (res_conn
       (@MHD_send_sendfile_ linux_build sample_connection env_broken_pipe))
  <> resp_sender sample_connection
  /\ res_ret
       (@MHD_send_sendfile_ linux_build sample_connection env_broken_pipe)
     = @MHD_ERR_AGAIN_ linux_build.
Proof.
  assert (H : resp_sender
                (res_conn
                   (@MHD_send_sendfile_ linux_build sample_connection
                      env_broken_pipe))
              <> resp_sender sample_connection)
    by (vm_compute; discriminate).
  split; [exact H|].
  apply (@sendfile_downgrade_is_retry linux_build sample_connection
           env_broken_pipe H).
Defined.

(** X12 (return values of [MHD_send_sendfile_]).  On Linux and Solaris the
    call returns a non-negative byte count or one of the four [MHD_ERR_]
    codes, whatever [sendfile()] answers; on FreeBSD and Darwin the same
    holds as long as the count the kernel leaves in its out-parameter is
    not negative. *)
Theorem sendfile_result_in_vocabulary {P : Platform} c env :
  let ret := res_ret (MHD_send_sendfile_ c env) in
  (SENDFILE = LINUX_SENDFILE \/ SENDFILE = SOLARIS_SENDFILE ->
   in_outcome_vocabulary ret = true)
  /\ (0 <= r_out (env_transfer env) -> in_outcome_vocabulary ret = true).
Proof.
  cbv zeta.
  assert (Hcode : forall z,
             z = MHD_ERR_AGAIN_ \/ z = MHD_ERR_CONNRESET_
             \/ z = MHD_ERR_NOTCONN_ \/ z = MHD_ERR_BADF_ \/ 0 <= z ->
             in_outcome_vocabulary z = true).
  { intros z H; unfold in_outcome_vocabulary.
    destruct H as [H | [H | [H | [H | H]]]];
      try (rewrite H, Z.eqb_refl; now rewrite ?orb_true_r).
    apply Z.leb_le in H; now rewrite H. }
  split; intros H; apply Hcode;
    open_call; destruct SENDFILE;
    try (destruct H as [H | H]; discriminate H);
    repeat case_if; expose_result; auto;
    do 4 right;
    match goal with
    | H : (_ <? 0) = false |- _ => apply Z.ltb_ge in H; exact H
    | _ => exact H
    end.
Qed.

Lemma sendfile_result_in_vocabulary_witness :
  0 <= r_out (env_transfer env_busy_after_5)
  /\ @in_outcome_vocabulary freebsd_build
       (res_ret
          (@MHD_send_sendfile_ freebsd_build sample_connection
             env_busy_after_5)) = true.
Proof.
  assert (H : 0 <= r_out (env_transfer env_busy_after_5))
    by (vm_compute; discriminate).
  split; [exact H|].
  apply (proj2 (@sendfile_result_in_vocabulary freebsd_build
                  sample_connection env_busy_after_5) H).
Defined.

Lemma pre_send_setopt_push_cork {P : Platform} c plain_send r :
  sk_corked (fst (pre_send_setopt c plain_send true r)) = sk_corked c.
Proof.
  unfold pre_send_setopt; repeat case_if; reflexivity.
Qed.

(** X13 (a successful [sendfile()]).  Within [off_t], a [sendfile()] that
    succeeds makes the call return the count it reports (its return value
    on Linux and Solaris, its out-parameter on FreeBSD and Darwin) and
    keeps the transmission strategy.  Linux and Solaris with epoll clear
    the write-ready bit exactly when the count is below the length asked
    for; FreeBSD and Darwin never touch the epoll state.  A corked
    connection comes out uncorked exactly when the build has a cork
    primitive, the count equals all that was left of the response and the
    uncork call answered non-zero. *)
Theorem sendfile_success {P : Platform} c env :
  offsetu64 c <= max_off_t ->
  sendfile_succeeded (env_transfer env) ->
  let count := sendfile_count (env_transfer env) in
  let res := MHD_send_sendfile_ c env in
  res_ret res = count
  /\ resp_sender (res_conn res) = resp_sender c
  /\ epoll_state (res_conn res)
     = (match SENDFILE with
        | LINUX_SENDFILE | SOLARIS_SENDFILE =>
            if EPOLL_SUPPORT && (to_size_t count <? send_size c)
            then Z.land (epoll_state c)
                   (Z.lnot MHD_EPOLL_STATE_WRITE_READY)
            else epoll_state c
        | _ => epoll_state c
        end)
  /\ (sk_corked c = true ->
      (sk_corked (res_conn res) = false
       <-> MHD_TCP_CORK_NOPUSH = true /\ left c = to_uint64 count
           /\ r_ret (env_post_setopt env) <> 0)).
Proof.
  intros Hoff Hok count res; subst count res.
  unfold sendfile_succeeded, sendfile_count in *.
  assert (Hpost : forall c' ret,
             sk_corked c' = sk_corked c ->
             sk_corked c = true ->
             sk_corked
               (fst (post_send_setopt c' false (left c =? to_uint64 ret)
                       (env_post_setopt env))) = false
             <-> MHD_TCP_CORK_NOPUSH = true /\ left c = to_uint64 ret
                 /\ r_ret (env_post_setopt env) <> 0).
  { intros c' ret Hsame Hc; rewrite Hc in Hsame.
    unfold post_send_setopt; rewrite andb_false_r, Hsame.
    destruct MHD_TCP_CORK_NOPUSH;
      [|cbn [fst]; rewrite Hsame; split; [|intros (? & _)]; congruence].
    destruct (Z.eqb_spec (left c) (to_uint64 ret)) as [He | He];
      cbn [negb Bool.eqb fst];
      [|rewrite Hsame; split; [|intros (_ & ? & _)]; congruence].
    destruct (Z.eqb_spec 0 (r_ret (env_post_setopt env))) as [Hz | Hz];
      cbn [negb fst set_sk_corked sk_corked].
    - rewrite Hsame; split; [|intros (_ & _ & ?)]; congruence.
    - split; auto. }
  pose proof (pre_send_setopt_push_cork c false (env_pre_setopt env))
    as Hpre.
  unfold MHD_send_sendfile_, sendfile_linux_solaris, sendfile_freebsd,
    sendfile_darwin, sendfile_finish; cbv zeta; autorewrite with conn.
  replace (max_off_t <? offsetu64 c) with false
    by (symmetry; now apply Z.ltb_ge).
  destruct SENDFILE;
    try (replace (r_ret (env_transfer env) <? 0) with false
           by (symmetry; now apply Z.ltb_ge));
    try (rewrite Hok; cbn [Z.eqb negb]);
    try (destruct (EPOLL_SUPPORT
                   && (to_size_t (r_ret (env_transfer env))
                       <? send_size c)));
    expose_result; autorewrite with conn; expose_result;
    repeat (split; [reflexivity|]);
    apply Hpost; cbn [sk_corked]; exact Hpre.
Qed.

Lemma sendfile_success_witness :
  offsetu64 (advance corked_connection 998000) <= @max_off_t freebsd_build
  /\ @sendfile_succeeded freebsd_build
       (env_transfer (env_setopt_1 {| r_ret := 0; r_errno := 0;
                                      r_out := 2000 |}))
  /\ res_ret
       (@MHD_send_sendfile_ freebsd_build (advance corked_connection 998000)
          (env_setopt_1 {| r_ret := 0; r_errno := 0; r_out := 2000 |}))
     = 2000
  /\ sk_corked
       (res_conn
          (@MHD_send_sendfile_ freebsd_build
             (advance corked_connection 998000)
             (env_setopt_1 {| r_ret := 0; r_errno := 0; r_out := 2000 |})))
     = false.
Proof.
  assert (H1 : offsetu64 (advance corked_connection 998000)
               <= @max_off_t freebsd_build)
    by (vm_compute; discriminate).
  assert (H2 : @sendfile_succeeded freebsd_build
                 (env_transfer
                    (env_setopt_1 {| r_ret := 0; r_errno := 0;
                                     r_out := 2000 |})))
    by reflexivity.
  split; [exact H1|]. split; [exact H2|].
  split.
  - apply (proj1 (@sendfile_success freebsd_build _ _ H1 H2)).
  - reflexivity.
Defined.

(** ** The scatter-gather path of [MHD_send_on_connection2_] *)

(** X14 (header and body at once).  On a plaintext connection of a build
    with [sendmsg()] or [writev()], [MHD_send_on_connection2_] makes
    exactly one transfer call, over the header and the body in this order
    and at their full sizes; it does so without looking at the socket or
    the connection state.  It never changes the epoll state or the
    transmission strategy.  [-1] with [EAGAIN] becomes [MHD_ERR_AGAIN_]
    with nothing called afterwards; a non-negative count is returned as
    it is; and a corked connection comes out uncorked only if the count
    equals the sum of the two sizes in [size_t]. *)
Theorem send2_scatter_gather {P : Platform} c header hn buffer n env :
  tls_conn_of c = false ->
  SCATTER_GATHER <> NO_SCATTER_GATHER ->
  let r := env_transfer env in
  let pre := pre_send_setopt c true true (env_pre_setopt env) in
  let res := MHD_send_on_connection2_ c header hn buffer n env in
  filter is_transfer (res_trace res)
  = [scatter_gather_call (socket_fd c) header hn buffer n]
  /\ epoll_state (res_conn res) = epoll_state c
  /\ resp_sender (res_conn res) = resp_sender c
  /\ (r_ret r = -1 -> r_errno r = EAGAIN ->
      res_ret res = MHD_ERR_AGAIN_
      /\ res_conn res = fst pre
      /\ res_trace res
         = snd pre ++ [scatter_gather_call (socket_fd c) header hn buffer n])
  /\ (0 <= r_ret r -> res_ret res = r_ret r)
  /\ (sk_corked c = true -> sk_corked (res_conn res) = false ->
      to_size_t (hn + n) = to_size_t (r_ret r)
      /\ r_ret (env_post_setopt env) <> 0).
Proof.
  intros Htls Hsg r pre res; subst r pre res.
  pose proof (pre_send_setopt_keeps_cork c true true (env_pre_setopt env))
    as Hpre.
  unfold MHD_send_on_connection2_, scatter_gather_call.
  rewrite Htls, andb_false_r; cbn [negb].
  destruct SCATTER_GATHER; try congruence; cbv zeta;
    (destruct (Z.eqb_spec (-1) (r_ret (env_transfer env))) as [Hm | Hm];
     destruct (Z.eqb_spec EAGAIN (r_errno (env_transfer env))) as [Ha | Ha];
     cbn [andb]; expose_result; autorewrite with conn;
     (split; [reflexivity|]); (split; [reflexivity|]);
     (split; [reflexivity|]);
     (split; [intros; try congruence; try lia; repeat split; reflexivity|]);
     (split; [intros; try reflexivity; lia|]);
     intros Hc Hu;
     [ specialize (Hpre Hc); congruence
     | apply post_send_setopt_uncorks in Hu; [|auto];
       destruct Hu as (_ & Hpush & Hreply & _);
       apply Z.eqb_eq in Hpush; auto .. ]).
Qed.

Lemma send2_scatter_gather_witness :
  @tls_conn_of freebsd_build corked_connection = false
  /\ @SCATTER_GATHER freebsd_build <> NO_SCATTER_GATHER
  /\ res_trace
       (@MHD_send_on_connection2_ freebsd_build corked_connection [] 10 []
          20 (env_setopt_1 (accepted 30)))
     = [sendmsg 7 [([], 10); ([], 20)] (@MSG_NOSIGNAL_OR_ZERO freebsd_build);
        MHD_socket_cork_ 7 false]
  /\ filter is_transfer
       (res_trace
          (@MHD_send_on_connection2_ freebsd_build corked_connection [] 10 []
             20 (env_setopt_1 (accepted 30))))
     = [sendmsg 7 [([], 10); ([], 20)] (@MSG_NOSIGNAL_OR_ZERO freebsd_build)].
Proof.
  assert (H1 : @tls_conn_of freebsd_build corked_connection = false)
    by reflexivity.
  assert (H2 : @SCATTER_GATHER freebsd_build <> NO_SCATTER_GATHER)
    by (vm_compute; discriminate).
  split; [exact H1|]. split; [exact H2|]. split; [reflexivity|].
  apply (proj1 (@send2_scatter_gather freebsd_build corked_connection [] 10
                  [] 20 (env_setopt_1 (accepted 30)) H1 H2)).
Defined.

(** ** Builds with [MSG_MORE] *)

Lemma msg_more_skips_hooks {P : Platform} c push_data r :
  MHD_USE_MSG_MORE = true ->
  pre_send_setopt c true push_data r = (c, [])
  /\ post_send_setopt c true push_data r = (c, []).
Proof.
  intros H; unfold pre_send_setopt, post_send_setopt; now rewrite H.
Qed.

(** X15 ([MSG_MORE]).  On a build with [MSG_MORE] and a connected socket:
    a plaintext send starts with [send()] itself, no mode-setting call
    before it, and the data is flagged [MSG_MORE] exactly when it is to be
    buffered; a TLS send makes no call after [gnutls_record_send], because
    the closing hook is handed [tls_conn] as [plain_send], so a TLS
    connection that is corked is still corked when the call returns. *)
Theorem msg_more_mode_calls {P : Platform} c buffer n opts env :
  MHD_USE_MSG_MORE = true ->
  socket_fd c <> MHD_INVALID_SOCKET ->
  state c <> MHD_CONNECTION_CLOSED ->
  let res := MHD_send_on_connection_ c buffer n opts env in
  (tls_conn_of c = false ->
   exists calls,
     res_trace res
     = MHD_send4_ (socket_fd c) buffer (send_length c n)
         (if push_data_of opts n then 0 else MSG_MORE) :: calls)
  /\ (tls_conn_of c = true ->
      res_trace res
      = snd (pre_send_setopt c false (push_data_of opts n)
               (env_pre_setopt env))
        ++ [gnutls_record_send (tls_session c) buffer (send_length c n)]
      /\ (sk_corked c = true -> sk_corked (res_conn res) = true)).
Proof.
  intros Hmore Hsock Hstate res; subst res.
  unfold MHD_send_on_connection_, send_length; cbv zeta.
  connected Hsock Hstate.
  rewrite !clamp_min.
  split; intros Htls; rewrite Htls; cbn [negb].
  - rewrite !(proj1 (msg_more_skips_hooks c _ _ Hmore)), Hmore.
    cbn [fst snd app].
    repeat case_if; expose_result; eexists; reflexivity.
  - pose proof (pre_send_setopt_keeps_cork c false (push_data_of opts n)
                  (env_pre_setopt env)) as Hpre.
    rewrite !(proj2 (msg_more_skips_hooks _ _ _ Hmore)).
    cbn [fst snd].
    repeat case_if; expose_result; autorewrite with conn;
      rewrite ?app_nil_r; auto.
Qed.

Lemma msg_more_mode_calls_witness :
  @MHD_USE_MSG_MORE linux_build = true
  /\ socket_fd sample_connection <> @MHD_INVALID_SOCKET linux_build
  /\ state sample_connection <> @MHD_CONNECTION_CLOSED linux_build
  /\ @tls_conn_of linux_build sample_connection = false
  /\ exists calls,
      res_trace
        (@MHD_send_on_connection_ linux_build sample_connection [] 10
           MHD_SSO_PREFER_BUFF env_of_ok)
      = MHD_send4_ 7 [] 10 (@MSG_MORE linux_build) :: calls.
Proof.
  assert (H2 : socket_fd sample_connection <> @MHD_INVALID_SOCKET linux_build)
    by (vm_compute; discriminate).
  assert (H3 : state sample_connection <> @MHD_CONNECTION_CLOSED linux_build)
    by (vm_compute; discriminate).
  split; [reflexivity|]. split; [exact H2|]. split; [exact H3|].
  split; [reflexivity|].
  apply (proj1 (@msg_more_mode_calls linux_build sample_connection [] 10
                  MHD_SSO_PREFER_BUFF env_of_ok eq_refl H2 H3) eq_refl).
Defined.

(** ** The static [sendfile()] flags *)

Lemma ceil_div_bounds (chunk ps : Z) :
  0 < chunk -> 0 < ps ->
  let q := Z.quot (chunk + ps - 1) ps in
  (q - 1) * ps < chunk <= q * ps.
Proof.
  intros Hc Hp q; subst q.
  rewrite Z.quot_div_nonneg by lia.
  pose proof (Z.div_mod (chunk + ps - 1) ps ltac:(lia)) as Hdm.
  pose proof (Z.mod_pos_bound (chunk + ps - 1) ps Hp) as Hm.
  nia.
Qed.

Lemma to_long_in_range (long_bits z : Z) :
  0 < long_bits ->
  - 2 ^ (long_bits - 1) <= z < 2 ^ (long_bits - 1) ->
  to_long long_bits z = z.
Proof.
  intros Hbits Hz; unfold to_long.
  replace (2 ^ long_bits) with (2 * 2 ^ (long_bits - 1))
    by (rewrite <- Z.pow_succ_r by lia; f_equal; lia).
  rewrite Z.mod_small; lia.
Qed.

Lemma readahead_pages_in_range (long_bits chunk ps : Z) :
  32 <= long_bits ->
  0 < chunk <= MHD_SENFILE_CHUNK_THR_P_C_ ->
  32 < ps ->
  ps + MHD_SENFILE_CHUNK_THR_P_C_ < 2 ^ (long_bits - 1) ->
  readahead_pages long_bits chunk ps = Z.quot (chunk + ps - 1) ps.
Proof.
  intros Hbits Hchunk Hps Hmax.
  unfold readahead_pages, to_uint16, MHD_SENFILE_CHUNK_THR_P_C_ in *.
  pose proof (ceil_div_bounds chunk ps) as Hb; cbv zeta in Hb.
  assert (Hq : 0 <= Z.quot (chunk + ps - 1) ps) by (apply Z.quot_pos; lia).
  assert (Hq16 : Z.quot (chunk + ps - 1) ps < 2 ^ 16) by nia.
  assert (Hpow : 2 ^ 16 <= 2 ^ (long_bits - 1))
    by (apply Z.pow_le_mono_r; lia).
  rewrite (to_long_in_range long_bits (chunk + ps)) by lia.
  rewrite (to_long_in_range long_bits (chunk + ps - 1)) by lia.
  rewrite to_long_in_range by lia.
  apply Z.mod_small; lia.
Qed.

(** X16 (read-ahead).  [MHD_send_init_static_vars_] falls back to plain
    [SF_NODISKIO] for both flag words when the page size cannot be
    obtained.  For a page size above 32 bytes that, added to the 2 MiB
    chunk, stays within [long] (of at least 32 bits), it asks for a
    read-ahead of the smallest number of pages that covers the chunk,
    128 KiB for the shared flags and 2 MiB for the thread-per-connection
    flags, a number the cast to 16 bits does not change. *)
Theorem init_static_vars_readahead
    (long_bits : Z) (SF_FLAGS : Z -> Z -> Z) (SF_NODISKIO sys_page_size : Z) :
  let pages := readahead_pages long_bits MHD_SENFILE_CHUNK_ sys_page_size in
  let pages_thr :=
    readahead_pages long_bits MHD_SENFILE_CHUNK_THR_P_C_ sys_page_size in
  (sys_page_size <= 0 ->
   MHD_send_init_static_vars_ long_bits SF_FLAGS SF_NODISKIO sys_page_size
   = (SF_NODISKIO, SF_NODISKIO))
  /\ (0 < sys_page_size ->
      MHD_send_init_static_vars_ long_bits SF_FLAGS SF_NODISKIO sys_page_size
      = (SF_FLAGS pages SF_NODISKIO, SF_FLAGS pages_thr SF_NODISKIO))
  /\ (32 <= long_bits ->
      32 < sys_page_size ->
      sys_page_size + MHD_SENFILE_CHUNK_THR_P_C_ < 2 ^ (long_bits - 1) ->
      (pages - 1) * sys_page_size < MHD_SENFILE_CHUNK_
      /\ MHD_SENFILE_CHUNK_ <= pages * sys_page_size
      /\ (pages_thr - 1) * sys_page_size < MHD_SENFILE_CHUNK_THR_P_C_
      /\ MHD_SENFILE_CHUNK_THR_P_C_ <= pages_thr * sys_page_size
      /\ 1 <= pages <= pages_thr).
Proof.
  intros pages pages_thr.
  split; [|split].
  - intros H; unfold MHD_send_init_static_vars_.
    now replace (sys_page_size <=? 0) with true
      by (symmetry; now apply Z.leb_le).
  - intros H; unfold MHD_send_init_static_vars_.
    now replace (sys_page_size <=? 0) with false
      by (symmetry; apply Z.leb_gt; lia).
  - intros Hbits Hps Hmax.
    subst pages pages_thr.
    rewrite (readahead_pages_in_range long_bits MHD_SENFILE_CHUNK_),
      (readahead_pages_in_range long_bits MHD_SENFILE_CHUNK_THR_P_C_)
      by (unfold MHD_SENFILE_CHUNK_, MHD_SENFILE_CHUNK_THR_P_C_ in *; lia).
    pose proof (ceil_div_bounds MHD_SENFILE_CHUNK_ sys_page_size) as H1.
    pose proof (ceil_div_bounds MHD_SENFILE_CHUNK_THR_P_C_ sys_page_size)
      as H2.
    cbv zeta in H1, H2.
    unfold MHD_SENFILE_CHUNK_, MHD_SENFILE_CHUNK_THR_P_C_ in *.
    repeat split; try lia; try nia.
Qed.

Lemma init_static_vars_readahead_witness :
  32 <= 64
  /\ 32 < 4096
  /\ 4096 + MHD_SENFILE_CHUNK_THR_P_C_ < 2 ^ (64 - 1)
  /\ readahead_pages 64 MHD_SENFILE_CHUNK_ 4096 = 32
  /\ readahead_pages 64 MHD_SENFILE_CHUNK_THR_P_C_ 4096 = 512
  /\ MHD_SENFILE_CHUNK_THR_P_C_
     <= readahead_pages 64 MHD_SENFILE_CHUNK_THR_P_C_ 4096 * 4096.
Proof.
  assert (H0 : 32 <= 64) by lia.
  assert (H1 : 32 < 4096) by lia.
  assert (H2 : 4096 + MHD_SENFILE_CHUNK_THR_P_C_ < 2 ^ (64 - 1))
    by (vm_compute; reflexivity).
  split; [exact H0|]. split; [exact H1|]. split; [exact H2|].
  split; [reflexivity|]. split; [reflexivity|].
  apply (proj2 (proj2
    (init_static_vars_readahead 64
       (fun rh flags => Z.lor (Z.shiftl rh 16) flags) 1 4096)) H0 H1 H2).
Defined.

(** A page size at the top of a 64-bit [long]: the sum wraps and the page
    count comes out as zero. *)
Example readahead_pages_wraps :
  readahead_pages 64 MHD_SENFILE_CHUNK_ (2 ^ 63 - 1) = 0.
Proof. reflexivity. Qed.
